(** * Mutual fund tax analyzer: the row-structure parser and the period split

    A shallow embedding of [mutual_fund_tax_analyzer.py]
    (class [MutualFundTaxAnalyzer]) and the properties of its parser,
    field normalisers and period partitioner.

    Modelling conventions.
    - Python [str] is a list of bytes ([list ascii], UTF-8).  Character
      classes ([str.strip], [str.isdigit], the [\d] and [\s] of [re]) are
      the ASCII ones; digits and blanks outside ASCII are not modelled.
    - A spreadsheet cell is observed by the program only through
      [pd.notna(val)] and [str(val)], so a cell is [None] (NaN, blank) or
      [Some s] with [s = str(val)].
    - A Python float is represented by the exact decimal it was read from
      ([Finite q]), or an infinity, or NaN; rounding to binary64, overflow
      and underflow are not modelled.  The integer literal [0] used by the
      program as a default and the float [0.0] are both [Finite 0].
    - Exceptions are values: the body of the row-level [try] runs in a
      small monad carrying the printed lines and either a value or the
      exception raised. *)

From Stdlib Require Import String Ascii List ZArith NArith QArith Bool Lia.
From Stdlib Require Import Permutation Sorted.
Import ListNotations.

Local Open Scope Z_scope.
Local Open Scope list_scope.

(** ** Text *)

Module Text.

Definition str := list ascii.

(** A string literal of the source. *)
Definition lit (s : string) : str := list_ascii_of_string s.

Definition code (c : ascii) : N := N_of_ascii c.

Definition str_eqb (a b : str) : bool :=
  if list_eq_dec ascii_dec a b then true else false.

(** [str.isspace] on ASCII: TAB..CR, FS..US and the space. *)
Definition is_space (c : ascii) : bool :=
  (((9 <=? code c) && (code c <=? 13)) || ((28 <=? code c) && (code c <=? 32)))%N.

Definition is_digit (c : ascii) : bool :=
  ((48 <=? code c) && (code c <=? 57))%N.

Definition digit_val (c : ascii) : Z := Z.of_N (code c) - 48.

Definition to_lower (c : ascii) : ascii :=
  if ((65 <=? code c) && (code c <=? 90))%N
  then ascii_of_N (code c + 32) else c.

Fixpoint lstrip_by (p : ascii -> bool) (s : str) : str :=
  match s with
  | c :: r => if p c then lstrip_by p r else s
  | [] => []
  end.

Definition strip_by (p : ascii -> bool) (s : str) : str :=
  rev (lstrip_by p (rev (lstrip_by p s))).

(** [s.strip()] *)
Definition strip (s : str) : str := strip_by is_space s.

(** [s.strip(c)] for a one-character argument *)
Definition strip_char (c : ascii) (s : str) : str := strip_by (Ascii.eqb c) s.

(** [s.isdigit()] *)
Definition isdigit (s : str) : bool :=
  match s with
  | [] => false
  | _ => forallb is_digit s
  end.

Fixpoint starts_with (p s : str) : bool :=
  match p, s with
  | [], _ => true
  | a :: p', b :: s' => Ascii.eqb a b && starts_with p' s'
  | _ :: _, [] => false
  end.

(** [sub in s] *)
Fixpoint contains (sub s : str) : bool :=
  starts_with sub s ||
  match s with
  | [] => false
  | _ :: r => contains sub r
  end.

(** [s.replace(old, '')] for a non-empty [old]: the occurrences of [old]
    are removed from left to right, without overlap.  [skip] counts the
    characters of a matched occurrence still to be dropped. *)
Fixpoint remove_from (old : str) (skip : nat) (s : str) : str :=
  match s with
  | [] => []
  | c :: r =>
      match skip with
      | S k => remove_from old k r
      | O =>
          if starts_with old s then remove_from old (length old - 1) r
          else c :: remove_from old 0 r
      end
  end.

Definition remove (old s : str) : str := remove_from old 0 s.

(** [s.split(sep)] for a non-empty [sep]; [cur] is the current piece,
    reversed. *)
Fixpoint split_from (sep : str) (skip : nat) (cur : str) (s : str) : list str :=
  match s with
  | [] => [rev cur]
  | c :: r =>
      match skip with
      | S k => split_from sep k cur r
      | O =>
          if starts_with sep s
          then rev cur :: split_from sep (length sep - 1) [] r
          else split_from sep 0 (c :: cur) r
      end
  end.

Definition split (sep s : str) : list str := split_from sep 0 [] s.

(** [sep.join(parts)] *)
Fixpoint join (sep : str) (parts : list str) : str :=
  match parts with
  | [] => []
  | [p] => p
  | p :: rest => p ++ sep ++ join sep rest
  end.

(** Value of a run of decimal digits, most significant first. *)
Definition digits_value (ds : list Z) : Z :=
  fold_left (fun acc d => 10 * acc + d) ds 0.

(** [int(s)] as the parser uses it: it is only reached with [s.isdigit()]
    true; any other text is reported as [ValueError] ([None]). *)
Definition py_int (s : str) : option Z :=
  if isdigit s then Some (digits_value (map digit_val s)) else None.

End Text.
Import Text.

(** ** Floats *)

Inductive pyfloat : Type :=
| Finite (q : Q)
| Infinite (negative : bool)
| NaN.

Definition fzero : pyfloat := Finite 0.

Module FloatSyntax.

(** The grammar of [float(s)]:
<<
  floatvalue  ::= [sign] (floatnumber | "inf" | "infinity" | "nan")
  floatnumber ::= number [exponent]
  number      ::= [digitpart] "." digitpart | digitpart ["."]
  exponent    ::= ("e" | "E") [sign] digitpart
  digitpart   ::= digit (["_"] digit)*
>>
    with surrounding blanks ignored and the words taken without regard to
    case. *)

(** The [(["_"] digit)*] tail of a digitpart. *)
Fixpoint digitpart_tail (s : str) : list Z * str :=
  match s with
  | c :: r =>
      if is_digit c then
        let '(ds, rest) := digitpart_tail r in (digit_val c :: ds, rest)
      else if Ascii.eqb c "_" then
        match r with
        | d :: r' =>
            if is_digit d then
              let '(ds, rest) := digitpart_tail r' in (digit_val d :: ds, rest)
            else ([], s)
        | [] => ([], s)
        end
      else ([], s)
  | [] => ([], [])
  end.

Definition digitpart (s : str) : option (list Z * str) :=
  match s with
  | c :: r =>
      if is_digit c then
        let '(ds, rest) := digitpart_tail r in Some (digit_val c :: ds, rest)
      else None
  | [] => None
  end.

(** Integer digits, fraction digits, rest. *)
Definition number (s : str) : option (list Z * list Z * str) :=
  match digitpart s with
  | Some (ip, r1) =>
      match r1 with
      | c :: r2 =>
          if Ascii.eqb c "." then
            match digitpart r2 with
            | Some (fp, r3) => Some (ip, fp, r3)
            | None => Some (ip, [], r2)
            end
          else Some (ip, [], r1)
      | [] => Some (ip, [], [])
      end
  | None =>
      match s with
      | c :: r2 =>
          if Ascii.eqb c "." then
            match digitpart r2 with
            | Some (fp, r3) => Some ([], fp, r3)
            | None => None
            end
          else None
      | [] => None
      end
  end.

(** An optional sign: [true] for a minus. *)
Definition sign (s : str) : bool * str :=
  match s with
  | c :: r =>
      if Ascii.eqb c "-" then (true, r)
      else if Ascii.eqb c "+" then (false, r)
      else (false, s)
  | [] => (false, [])
  end.

(** The exponent, when the text left after the number is one. *)
Definition exponent (s : str) : option Z :=
  match s with
  | [] => Some 0
  | c :: r =>
      if Ascii.eqb (to_lower c) "e" then
        let '(neg, r1) := sign r in
        match digitpart r1 with
        | Some (ds, []) =>
            Some (if neg then - digits_value ds else digits_value ds)
        | _ => None
        end
      else None
  end.

(** [m * 10 ^ e] as a reduced fraction. *)
Definition scale10 (m e : Z) : Q :=
  if 0 <=? e then Qred (Qmake (m * 10 ^ e) 1)
  else Qred (Qmake m (Z.to_pos (10 ^ (- e)))).

Definition floatnumber (s : str) : option Q :=
  match number s with
  | Some (ip, fp, rest) =>
      match exponent rest with
      | Some e =>
          Some (scale10 (digits_value (ip ++ fp)) (e - Z.of_nat (length fp)))
      | None => None
      end
  | None => None
  end.

(** [float(s)]; [None] stands for [ValueError]. *)
Definition py_float (s : str) : option pyfloat :=
  let '(neg, body) := sign (strip s) in
  let word := map to_lower body in
  if str_eqb word (lit "inf") || str_eqb word (lit "infinity")
  then Some (Infinite neg)
  else if str_eqb word (lit "nan") then Some NaN
  else
    match floatnumber body with
    | Some q => Some (Finite (if neg then Qred (Qopp q) else q))
    | None => None
    end.

End FloatSyntax.
Import FloatSyntax.

(** ** Dates *)

(** A [datetime] built by [strptime] from one of the five formats below:
    the time of day is midnight, so only the calendar date is kept.
    [TAX_CHANGE_DATE] is of the same kind. *)
Record datetime : Type := mkdate { year : Z; month : Z; day : Z }.

(** [a < b] on datetimes. *)
Definition dt_ltb (a b : datetime) : bool :=
  (year a <? year b) ||
  ((year a =? year b) &&
   ((month a <? month b) || ((month a =? month b) && (day a <? day b)))).

(** [a >= b] on datetimes. *)
Definition dt_geb (a b : datetime) : bool :=
  (year b <? year a) ||
  ((year a =? year b) &&
   ((month b <? month a) || ((month a =? month b) && (day b <=? day a)))).

Module Strptime.

(** [datetime.strptime(s, fmt)] turns [fmt] into a regular expression
    (one group per directive, a run of blanks into [\s+], any other
    character into itself), matches it against the start of [s] without
    regard to case, fails if the match does not reach the end of [s], and
    builds the date from the groups.  A directive is matched here by the
    list of its possible matches, in the order the regular expression
    tries them. *)
Inductive directive : Type :=
| Dir_b            (* %b  abbreviated month name *)
| Dir_B            (* %B  full month name *)
| Dir_d            (* %d  3[0-1]|[1-2]\d|0[1-9]|[1-9]| [1-9] *)
| Dir_m            (* %m  1[0-2]|0[1-9]|[1-9] *)
| Dir_Y            (* %Y  \d\d\d\d *)
| Dir_ws           (* \s+ *)
| Dir_lit (c : ascii)
| Dir_bad.         (* a directive the formats below do not use *)

Definition directive_of (c : ascii) : directive :=
  if Ascii.eqb c "b" then Dir_b
  else if Ascii.eqb c "B" then Dir_B
  else if Ascii.eqb c "d" then Dir_d
  else if Ascii.eqb c "m" then Dir_m
  else if Ascii.eqb c "Y" then Dir_Y
  else Dir_bad.

Fixpoint compile (after_blank : bool) (fmt : str) : list directive :=
  match fmt with
  | [] => []
  | c :: r =>
      if is_space c then
        if after_blank then compile true r else Dir_ws :: compile true r
      else if Ascii.eqb c "%" then
        match r with
        | d :: r' => directive_of d :: compile false r'
        | [] => [Dir_bad]
        end
      else Dir_lit c :: compile false r
  end.

(** The groups found so far; the initial values are those of [_strptime]. *)
Record fields : Type := mkfields { f_year : Z; f_month : Z; f_day : Z }.

Definition no_fields : fields := mkfields 1900 1 1.

Definition in_range (lo hi : N) (c : ascii) : bool :=
  ((lo <=? code c) && (code c <=? hi))%N.

(** One alternative made of two character classes. *)
Definition two (p1 p2 : ascii -> bool) (s : str) : list (Z * str) :=
  match s with
  | a :: b :: r =>
      if p1 a && p2 b then [(10 * digit_val a + digit_val b, r)] else []
  | _ => []
  end.

(** One alternative made of one character class. *)
Definition one (p : ascii -> bool) (s : str) : list (Z * str) :=
  match s with
  | a :: r => if p a then [(digit_val a, r)] else []
  | [] => []
  end.

(** The alternative [ [1-9]] of [%d]: a blank, then a digit. *)
Definition blank_one (s : str) : list (Z * str) :=
  match s with
  | a :: b :: r =>
      if Ascii.eqb a " " && in_range 49 57 b then [(digit_val b, r)] else []
  | _ => []
  end.

Definition match_d (s : str) : list (Z * str) :=
  two (in_range 51 51) (in_range 48 49) s ++
  two (in_range 49 50) is_digit s ++
  two (in_range 48 48) (in_range 49 57) s ++
  one (in_range 49 57) s ++
  blank_one s.

Definition match_m (s : str) : list (Z * str) :=
  two (in_range 49 49) (in_range 48 50) s ++
  two (in_range 48 48) (in_range 49 57) s ++
  one (in_range 49 57) s.

Definition match_Y (s : str) : list (Z * str) :=
  match s with
  | a :: b :: c :: d :: r =>
      if is_digit a && is_digit b && is_digit c && is_digit d
      then [(digits_value (map digit_val [a; b; c; d]), r)] else []
  | _ => []
  end.

Fixpoint starts_with_nocase (p s : str) : bool :=
  match p, s with
  | [], _ => true
  | a :: p', b :: s' =>
      Ascii.eqb (to_lower a) (to_lower b) && starts_with_nocase p' s'
  | _ :: _, [] => false
  end.

(** Month names of the C locale with their numbers.  [%B] lists the names
    longest first, as the regular expression does. *)
Definition abbr_months : list (string * Z) :=
  [("jan", 1); ("feb", 2); ("mar", 3); ("apr", 4); ("may", 5); ("jun", 6);
   ("jul", 7); ("aug", 8); ("sep", 9); ("oct", 10); ("nov", 11); ("dec", 12)]%string.

Definition full_months : list (string * Z) :=
  [("september", 9); ("february", 2); ("november", 11); ("december", 12);
   ("january", 1); ("october", 10); ("august", 8); ("march", 3); ("april", 4);
   ("june", 6); ("july", 7); ("may", 5)]%string.

Definition match_name (names : list (string * Z)) (s : str) : list (Z * str) :=
  flat_map
    (fun nm =>
       if starts_with_nocase (lit (fst nm)) s
       then [(snd nm, skipn (length (lit (fst nm))) s)] else [])
    names.

(** [\s+], greedy: the longest run of blanks first. *)
Fixpoint match_ws (s : str) : list str :=
  match s with
  | c :: r => if is_space c then match_ws r ++ [r] else []
  | [] => []
  end.

Definition match_directive (d : directive) (st : fields * str) : list (fields * str) :=
  let '(f, s) := st in
  match d with
  | Dir_b | Dir_B =>
      map (fun vr => (mkfields (f_year f) (fst vr) (f_day f), snd vr))
          (match_name (match d with Dir_b => abbr_months | _ => full_months end) s)
  | Dir_d => map (fun vr => (mkfields (f_year f) (f_month f) (fst vr), snd vr)) (match_d s)
  | Dir_m => map (fun vr => (mkfields (f_year f) (fst vr) (f_day f), snd vr)) (match_m s)
  | Dir_Y => map (fun vr => (mkfields (fst vr) (f_month f) (f_day f), snd vr)) (match_Y s)
  | Dir_ws => map (fun r => (f, r)) (match_ws s)
  | Dir_lit c =>
      match s with
      | x :: r => if Ascii.eqb (to_lower c) (to_lower x) then [(f, r)] else []
      | [] => []
      end
  | Dir_bad => []
  end.

Fixpoint match_all (ds : list directive) (st : fields * str) : list (fields * str) :=
  match ds with
  | [] => [st]
  | d :: ds' => flat_map (match_all ds') (match_directive d st)
  end.

Definition is_leap (y : Z) : bool :=
  (y mod 4 =? 0) && (negb (y mod 100 =? 0) || (y mod 400 =? 0)).

Definition days_in_month (y m : Z) : Z :=
  if m =? 2 then (if is_leap y then 29 else 28)
  else if (m =? 4) || (m =? 6) || (m =? 9) || (m =? 11) then 30
  else 31.

(** The date constructor: [ValueError] outside the calendar. *)
Definition make_date (f : fields) : option datetime :=
  if (1 <=? f_year f) && (f_year f <=? 9999) &&
     (1 <=? f_month f) && (f_month f <=? 12) &&
     (1 <=? f_day f) && (f_day f <=? days_in_month (f_year f) (f_month f))
  then Some (mkdate (f_year f) (f_month f) (f_day f))
  else None.

(** [datetime.strptime(s, fmt)]; [None] stands for [ValueError]. *)
Definition strptime (s fmt : str) : option datetime :=
  match match_all (compile false fmt) (no_fields, s) with
  | [] => None                       (* does not match the format *)
  | (f, []) :: _ => make_date f
  | (_, _ :: _) :: _ => None         (* unconverted data remains *)
  end.

End Strptime.
Import Strptime.

(** ** The analyzer *)

(** [TAX_CHANGE_DATE = datetime(2024, 7, 23)] *)
Definition TAX_CHANGE_DATE : datetime := mkdate 2024 7 23.

(** The double quote character. *)
Definition dquote : ascii := ascii_of_N 34.

(** The [formats] list of [parse_date], in the order of the source. *)
Definition formats : list str :=
  [lit "%b %d, %Y"; lit "%B %d, %Y"; lit "%d/%m/%Y"; lit "%Y-%m-%d"; lit "%d-%m-%Y"].

(** The loop over [formats]: the first format that parses wins, a
    [ValueError] moves on to the next. *)
Fixpoint try_formats (date_str : str) (fmts : list str) : option datetime :=
  match fmts with
  | [] => None
  | fmt :: rest =>
      match strptime date_str fmt with
      | Some d => Some d
      | None => try_formats date_str rest
      end
  end.

Definition warning (date_str : str) : str :=
  lit "Warning: Could not parse date '" ++ date_str ++ lit "'".

(** [parse_date]: the value returned and the lines printed. *)
Definition parse_date (date_str : str) : option datetime * list str :=
  if str_eqb date_str [] || str_eqb (strip date_str) (lit "-") then (None, [])
  else
    let date_str := strip_char dquote (strip date_str) in
    match try_formats date_str formats with
    | Some d => (Some d, [])
    | None => (None, [warning date_str])
    end.

(** The rupee sign, U+20B9, in UTF-8. *)
Definition rupee : str :=
  [ascii_of_N 226; ascii_of_N 130; ascii_of_N 185].

(** The text [parse_currency] hands to [float]. *)
Definition cleaned (currency_str : str) : str :=
  strip (remove [dquote] (remove (lit ",") (remove rupee currency_str))).

(** [parse_currency] *)
Definition parse_currency (currency_str : str) : pyfloat :=
  if str_eqb currency_str [] ||
     str_eqb (strip currency_str) (lit "-") || str_eqb (strip currency_str) []
  then fzero
  else
    match py_float (cleaned currency_str) with
    | Some v => v
    | None => fzero
    end.

(** *** Exceptions and printed lines *)

Inductive exn : Type := ValueError | IndexError.

Inductive result (A : Type) : Type :=
| Ok (a : A)
| Raise (e : exn).
Arguments Ok {A} a.
Arguments Raise {A} e.

(** A computation: the lines it printed, then its value or the exception
    that ended it. *)
Definition M (A : Type) : Type := list str * result A.

Definition ret {A} (a : A) : M A := ([], Ok a).
Definition raise {A} (e : exn) : M A := ([], Raise e).

Definition bind {A B} (c : M A) (k : A -> M B) : M B :=
  match c with
  | (out, Ok a) => let '(out', r) := k a in (out ++ out', r)
  | (out, Raise e) => (out, Raise e)
  end.

Notation "x <- c ;; k" := (bind c (fun x => k))
  (at level 61, c at next level, right associativity).

(** A call that may raise [ValueError]. *)
Definition or_value_error {A} (o : option A) : M A :=
  match o with
  | Some a => ret a
  | None => raise ValueError
  end.

(** A call of [parse_date]: its value, with its printed lines. *)
Definition call_parse_date (s : str) : M (option datetime) :=
  let '(d, out) := parse_date s in (out, Ok d).

(** *** Rows and records *)

(** A cell: [None] when [pd.notna] is false, else [Some (str(val))]. *)
Definition cell : Type := option str.

Definition notna (c : cell) : bool :=
  match c with
  | Some _ => true
  | None => false
  end.

(** [str(val)] *)
Definition to_str (c : cell) : str :=
  match c with
  | Some s => s
  | None => lit "nan"
  end.

(** [row.iloc[k]]: [IndexError] past the end of the row. *)
Definition iloc (row : list cell) (k : nat) : M cell :=
  match nth_error row k with
  | Some c => ret c
  | None => raise IndexError
  end.

(** [row.iloc[k]] where the source has checked [len(row) > k] first. *)
Definition at_ (row : list cell) (k : nat) : cell := nth k row None.

(** [len(row) > k and pd.notna(row.iloc[k])] *)
Definition present (row : list cell) (k : nat) : bool :=
  Nat.ltb k (length row) && notna (at_ row k).

(** [... and str(row.iloc[k]).strip() != ''] *)
Definition nonblank (c : cell) : bool := negb (str_eqb (strip (to_str c)) []).

(** The dictionary appended to [transactions]. *)
Record Transaction : Type := mkTransaction {
  fund_name : option str;
  folio_number : option str;
  transaction_number : Z;
  units : pyfloat;
  purchase_date : option datetime;
  purchase_value : pyfloat;
  purchase_nav : pyfloat;
  redemption_date : option datetime;
  redemption_value : pyfloat;
  redemption_nav : pyfloat;
  stcg : pyfloat;
  ltcg : pyfloat
}.

(** [units]: cell 1, commas removed, read by [float]. *)
Definition units_field (row : list cell) : M pyfloat :=
  c1 <- iloc row 1 ;;
  if notna c1 && nonblank c1
  then or_value_error (py_float (remove (lit ",") (to_str c1)))
  else ret fzero.

(** [purchase_date]: cell 2, read by [parse_date]. *)
Definition purchase_date_field (row : list cell) : M (option datetime) :=
  c2 <- iloc row 2 ;;
  let purchase_date_str := if notna c2 then strip (to_str c2) else [] in
  if negb (str_eqb purchase_date_str []) &&
     negb (str_eqb purchase_date_str (lit "nan"))
  then call_parse_date purchase_date_str
  else ret None.

(** [purchase_value], [redemption_value], [stcg], [ltcg]: cells 3, 9, 11
    and 12, read by [parse_currency]. *)
Definition currency_field (row : list cell) (k : nat) : pyfloat :=
  if present row k then parse_currency (to_str (at_ row k)) else fzero.

(** [purchase_nav], [redemption_nav]: cells 4 and 10, read by [float]. *)
Definition nav_field (row : list cell) (k : nat) : M pyfloat :=
  if present row k && nonblank (at_ row k)
  then or_value_error (py_float (to_str (at_ row k)))
  else ret fzero.

(** [redemption_date]: cell 8, read by [parse_date]. *)
Definition redemption_date_field (row : list cell) : M (option datetime) :=
  if present row 8 && nonblank (at_ row 8)
  then call_parse_date (strip (to_str (at_ row 8)))
  else ret None.

(** The body of the row-level [try] of [parse_excel_data].  [Ok None] is a
    row that adds nothing: its first cell is no transaction number, or the
    [continue] after a missing purchase date. *)
Definition build (current_fund current_folio : option str) (row : list cell)
  : M (option Transaction) :=
  first_cell <- iloc row 0 ;;
  if notna first_cell && isdigit (strip (to_str first_cell)) then
    transaction_num <- or_value_error (py_int (strip (to_str first_cell))) ;;
    units <- units_field row ;;
    purchase_date <- purchase_date_field row ;;
    match purchase_date with
    | None => ret None
    | Some _ =>
        let purchase_value := currency_field row 3 in
        purchase_nav <- nav_field row 4 ;;
        redemption_date <- redemption_date_field row ;;
        let redemption_value := currency_field row 9 in
        redemption_nav <- nav_field row 10 ;;
        let stcg := currency_field row 11 in
        let ltcg := currency_field row 12 in
        ret (Some {| fund_name := current_fund;
                     folio_number := current_folio;
                     transaction_number := transaction_num;
                     units := units;
                     purchase_date := purchase_date;
                     purchase_value := purchase_value;
                     purchase_nav := purchase_nav;
                     redemption_date := redemption_date;
                     redemption_value := redemption_value;
                     redemption_nav := redemption_nav;
                     stcg := stcg;
                     ltcg := ltcg |})
    end
  else ret None.

(** *** The scan *)

(** The variables of the loop of [parse_excel_data], and the lines printed
    so far by [parse_date] (the other messages of the program are not
    modelled). *)
Record ParseContext : Type := mkContext {
  transactions : list Transaction;
  current_fund : option str;
  current_folio : option str;
  printed : list str
}.

Definition initial : ParseContext := mkContext [] None None [].

(** [' '.join([str(val) for val in row.values if pd.notna(val)])] *)
Definition row_str (row : list cell) : str :=
  join (lit " ") (map to_str (filter notna row)).

Definition isin_marker : str := lit "[ISIN:".
Definition paren_marker : str := lit "] (".
Definition folio_marker : str := lit "Folio No:".

(** The test of the fund name line. *)
Definition is_fund_header (row : list cell) : bool :=
  contains isin_marker (row_str row) && contains paren_marker (row_str row).

(** The test of the folio line (made after the fund test has failed). *)
Definition is_folio_header (row : list cell) : bool :=
  contains folio_marker (row_str row).

(** One iteration of the loop.  The handler
    [except (ValueError, IndexError): continue] keeps the lines printed
    and drops the row. *)
Definition step (st : ParseContext) (row : list cell) : ParseContext :=
  if is_fund_header row then
    mkContext (transactions st)
              (Some (strip (nth 0 (split isin_marker (row_str row)) [])))
              (current_folio st) (printed st)
  else if is_folio_header row then
    mkContext (transactions st) (current_fund st)
              (Some (strip (nth 1 (split folio_marker (row_str row)) [])))
              (printed st)
  else
    match build (current_fund st) (current_folio st) row with
    | (out, Ok (Some t)) =>
        mkContext (transactions st ++ [t]) (current_fund st) (current_folio st)
                  (printed st ++ out)
    | (out, Ok None) =>
        mkContext (transactions st) (current_fund st) (current_folio st)
                  (printed st ++ out)
    | (out, Raise ValueError) | (out, Raise IndexError) =>
        mkContext (transactions st) (current_fund st) (current_folio st)
                  (printed st ++ out)
    end.

(** The loop over the rows of the sheet. *)
Definition scan (st : ParseContext) (df : list (list cell)) : ParseContext :=
  fold_left step df st.

(** [parse_excel_data]: [None] when no transaction was found, else the
    frame of the transactions, in the order of the rows. *)
Definition parse_excel_data (df : list (list cell)) : option (list Transaction) :=
  match transactions (scan initial df) with
  | [] => None
  | ts => Some ts
  end.

(** *** The split by redemption date *)

Definition has_date (d : option datetime) : bool :=
  match d with
  | Some _ => true
  | None => false
  end.

(** A column compared with a date: a missing date compares false. *)
Definition col_lt (d : option datetime) (c : datetime) : bool :=
  match d with
  | Some x => dt_ltb x c
  | None => false
  end.

Definition col_ge (d : option datetime) (c : datetime) : bool :=
  match d with
  | Some x => dt_geb x c
  | None => false
  end.

Definition valid_transactions (df : list Transaction) : list Transaction :=
  filter (fun t => has_date (purchase_date t)) df.

Definition redeemed_transactions (df : list Transaction) : list Transaction :=
  filter (fun t => has_date (redemption_date t)) (valid_transactions df).

Definition before_july_23 (df : list Transaction) : list Transaction :=
  filter (fun t => col_lt (redemption_date t) TAX_CHANGE_DATE)
         (redeemed_transactions df).

Definition after_july_23 (df : list Transaction) : list Transaction :=
  filter (fun t => col_ge (redemption_date t) TAX_CHANGE_DATE)
         (redeemed_transactions df).

(** [analyze_transactions], given what [read_excel_file] returned: [None]
    where the method returns [False], else the two period frames it
    stores. *)
Definition analyze_transactions (read : option (list Transaction))
  : option (list Transaction * list Transaction) :=
  match read with
  | None => None
  | Some df =>
      if Nat.eqb (length (valid_transactions df)) 0 then None
      else if Nat.eqb (length (redeemed_transactions df)) 0 then None
      else Some (before_july_23 df, after_july_23 df)
  end.

(** *** Reports *)

Section Reports.

(** Float arithmetic is left abstract: [col_sum] is the sum of a pandas
    column and [fadd] is the addition of two floats. *)
Variable col_sum : list pyfloat -> pyfloat.
Variable fadd : pyfloat -> pyfloat -> pyfloat.

Record Summary : Type := mkSummary {
  period : list str;
  transactions_count : list nat;
  total_purchase_value : list pyfloat;
  total_redemption_value : list pyfloat;
  total_stcg : list pyfloat;
  total_ltcg : list pyfloat
}.

(** The three entries of a column of the summary. *)
Definition three (f : Transaction -> pyfloat) (before after : list Transaction)
  : list pyfloat :=
  [col_sum (map f before); col_sum (map f after);
   fadd (col_sum (map f before)) (col_sum (map f after))].

(** [generate_summary_report], from the two stored period frames. *)
Definition generate_summary_report (before after : list Transaction) : Summary :=
  {| period := [lit "Redeemed Before July 23, 2024 (Old Tax Rules)";
                lit "Redeemed After July 23, 2024 (New Tax Rules)";
                lit "Total"];
     transactions_count :=
       [length before; length after; (length before + length after)%nat];
     total_purchase_value := three purchase_value before after;
     total_redemption_value := three redemption_value before after;
     total_stcg := three stcg before after;
     total_ltcg := three ltcg before after |}.

Record FundRow : Type := mkFundRow {
  Fund_Name : str;
  Number_of_Transactions : nat;
  Total_Purchase_Value : pyfloat;
  Total_Redemption_Value : pyfloat;
  Total_STCG : pyfloat;
  Total_LTCG : pyfloat;
  Total_Gains : pyfloat
}.

(** Order of strings: by character code, a prefix first. *)
Fixpoint str_ltb (a b : str) : bool :=
  match a, b with
  | _, [] => false
  | [], _ :: _ => true
  | x :: a', y :: b' =>
      ((code x <? code y) || ((code x =? code y) && str_ltb a' b'))%N
  end.

Fixpoint insert_sorted (k : str) (ks : list str) : list str :=
  match ks with
  | [] => [k]
  | x :: r => if str_ltb x k then x :: insert_sorted k r else k :: ks
  end.

(** The keys of [groupby('fund_name')]: the distinct names, sorted; rows
    without a name belong to no group. *)
Definition group_keys (period_df : list Transaction) : list str :=
  fold_right insert_sorted []
    (nodup (list_eq_dec ascii_dec)
       (flat_map (fun t => match fund_name t with Some n => [n] | None => [] end)
                 period_df)).

Definition in_group (k : str) (t : Transaction) : bool :=
  match fund_name t with
  | Some n => str_eqb n k
  | None => false
  end.

(** [generate_fund_wise_report] *)
Definition generate_fund_wise_report (period_df : list Transaction) : list FundRow :=
  if Nat.eqb (length period_df) 0 then []
  else
    map (fun k =>
           let g := filter (in_group k) period_df in
           {| Fund_Name := k;
              Number_of_Transactions := length g;
              Total_Purchase_Value := col_sum (map purchase_value g);
              Total_Redemption_Value := col_sum (map redemption_value g);
              Total_STCG := col_sum (map stcg g);
              Total_LTCG := col_sum (map ltcg g);
              Total_Gains := fadd (col_sum (map stcg g)) (col_sum (map ltcg g)) |})
        (group_keys period_df).

End Reports.

(** ** Sample sheets *)

Definition txt (s : string) : cell := Some (lit s).
Definition blank : cell := None.

(** The scenario of the specification: one fund, one folio, two redeemed
    purchases on either side of the change of rules. *)
Definition sample_sheet : list (list cell) :=
  [ [txt "Fund A [ISIN:XX123] (Growth)"];
    [txt "Folio No: 999"];
    [txt "1"; txt "10.5"; txt "Aug 09, 2023"; txt "1,000.00"; txt "95.2";
     blank; blank; blank; txt "Jul 01, 2024"; txt "1,200.00"; txt "114.3";
     txt "200.00"; txt "-"];
    [txt "2"; txt "1,000"; txt "09/08/2023"; txt "2,000.00"; txt "2";
     blank; blank; blank; txt "Aug 01, 2024"; txt "2,500.00"; txt "2.5";
     txt "-"; txt "500.00"] ].

(** The value of the purchase date cell of a row: what [parse_date] makes
    of cell 2, when the row has one and it is not blank. *)
Definition purchase_date_of (row : list cell) : option datetime :=
  match nth_error row 2 with
  | Some (Some s) => fst (parse_date (strip s))
  | _ => None
  end.

(** The first cell carries a transaction number. *)
Definition has_transaction_number (row : list cell) : bool :=
  match nth_error row 0 with
  | Some (Some s) => isdigit (strip s)
  | _ => false
  end.

(** Value of a computation, without the printed lines. *)
Definition value {A} (c : M A) : result A := snd c.

(** The record a row yields once every field has a value. *)
Definition record_of (cf fo : option str) (row : list cell)
  (n : Z) (u : pyfloat) (d : datetime) (pn : pyfloat)
  (rd : option datetime) (rn : pyfloat) : Transaction :=
  {| fund_name := cf; folio_number := fo; transaction_number := n;
     units := u; purchase_date := Some d;
     purchase_value := currency_field row 3; purchase_nav := pn;
     redemption_date := rd; redemption_value := currency_field row 9;
     redemption_nav := rn;
     stcg := currency_field row 11; ltcg := currency_field row 12 |}.

(** *** The export *)



Section ExportReports.

Variable col_sum : list pyfloat -> pyfloat.
Variable fadd : pyfloat -> pyfloat -> pyfloat.





End ExportReports.

(** A row the scan can take a record from: no header line, a transaction
    number in the first cell and a purchase date in cell 2. *)
Definition admissible (row : list cell) : bool :=
  negb (is_fund_header row) && negb (is_folio_header row) &&
  has_transaction_number row && has_date (purchase_date_of row).

(** A record carries a fund name. *)
Definition named (t : Transaction) : bool :=
  match fund_name t with
  | Some _ => true
  | None => false
  end.

(** A date of the calendar. *)
Definition calendar_date (d : datetime) : Prop :=
  1 <= year d <= 9999 /\ 1 <= month d <= 12 /\
  1 <= day d <= days_in_month (year d) (month d).

(** *** How the formats tell texts apart *)

(** A literal of a format accepts the character [x]. *)
Definition lit_eq (c x : ascii) : bool := Ascii.eqb (to_lower c) (to_lower x).

(** The character can start a month name. *)
Definition month_initial (c : ascii) : bool :=
  existsb (Ascii.eqb (to_lower c)) (lit "jfmasond").

(** The character can start what [%d] matches: a digit or a space. *)
Definition day_initial (c : ascii) : bool := is_digit c || Ascii.eqb c " ".

(** The text starts with a month initial. *)
Definition shape_name (s : str) : Prop :=
  exists c r, s = c :: r /\ month_initial c = true.

(** The text starts with one or two characters of a day, then the
    separator [c]. *)
Definition shape_day (c : ascii) (s : str) : Prop :=
  (exists a x r, s = a :: x :: r /\ day_initial a = true /\ lit_eq c x = true) \/
  (exists a b x r,
      s = a :: b :: x :: r /\ day_initial a = true /\ is_digit b = true /\
      lit_eq c x = true).

(** The text starts with four digits, then a hyphen. *)
Definition shape_iso (s : str) : Prop :=
  exists a b c d x r,
    s = a :: b :: c :: d :: x :: r /\
    is_digit a = true /\ is_digit b = true /\ is_digit c = true /\
    is_digit d = true /\ lit_eq "-" x = true.

(** *** Dates printed by the program *)

(** The character of a decimal digit. *)
Definition digit_char (k : Z) : ascii := ascii_of_N (Z.to_N (48 + k)).

Definition two_digits (n : Z) : str :=
  [digit_char (n / 10); digit_char (n mod 10)].

Definition four_digits (n : Z) : str :=
  [digit_char (n / 1000); digit_char (n / 100 mod 10);
   digit_char (n / 10 mod 10); digit_char (n mod 10)].

(** [d.strftime('%Y-%m-%d')], as [print_analysis_summary] prints
    [TAX_CHANGE_DATE], for a year of four digits. *)
Definition strftime_iso (d : datetime) : str :=
  four_digits (year d) ++ lit "-" ++ two_digits (month d) ++ lit "-"
  ++ two_digits (day d).

(** ** Checks on concrete inputs *)

Example py_float_plain : py_float (lit "123456.78") = Some (Finite (Qmake 6172839 50)).
Proof. vm_compute. reflexivity. Qed.

Example parse_date_ex1 : parse_date (lit "Aug 09, 2023") = (Some (mkdate 2023 8 9), []).
Proof. vm_compute. reflexivity. Qed.

Example parse_date_ex2 : parse_date (lit "9/8/2023") = (Some (mkdate 2023 8 9), []).
Proof. vm_compute. reflexivity. Qed.

Example parse_date_ex3 : parse_date (lit "30-02-2023") = (None, [warning (lit "30-02-2023")]).
Proof. vm_compute. reflexivity. Qed.

Example parse_date_ex4 : parse_date (lit "september  1, 2024") = (Some (mkdate 2024 9 1), []).
Proof. vm_compute. reflexivity. Qed.

Example parse_currency_ex1 : parse_currency (rupee ++ lit "1,23,456.78") = Finite (Qmake 6172839 50).
Proof. vm_compute. reflexivity. Qed.

Example sample_parsed :
  option_map (map (fun t => (fund_name t, folio_number t, transaction_number t,
                             purchase_date t, redemption_date t)))
             (parse_excel_data sample_sheet)
  = Some [ (Some (lit "Fund A"), Some (lit "999"), 1,
            Some (mkdate 2023 8 9), Some (mkdate 2024 7 1));
           (Some (lit "Fund A"), Some (lit "999"), 2,
            Some (mkdate 2023 8 9), Some (mkdate 2024 8 1)) ].
Proof. vm_compute. reflexivity. Qed.

Example sample_split :
  option_map (fun p => (map transaction_number (fst p), map transaction_number (snd p)))
             (analyze_transactions (parse_excel_data sample_sheet))
  = Some ([1], [2]).
Proof. vm_compute. reflexivity. Qed.

(** ** Facts about text *)

Lemma str_eqb_eq (a b : str) : str_eqb a b = true <-> a = b.
Proof.
  unfold str_eqb. destruct (list_eq_dec ascii_dec a b); split; congruence.
Qed.

Lemma str_eqb_neq (a b : str) : str_eqb a b = false <-> a <> b.
Proof.
  unfold str_eqb. destruct (list_eq_dec ascii_dec a b); split; congruence.
Qed.

Lemma starts_with_app (p x : str) : starts_with p (p ++ x) = true.
Proof.
  induction p as [|a p IH]; simpl; [reflexivity|].
  now rewrite Ascii.eqb_refl, IH.
Qed.

Lemma starts_with_split (p s : str) :
  starts_with p s = true -> s = p ++ skipn (length p) s.
Proof.
  revert s. induction p as [|a p IH]; intros s H; simpl in *; [reflexivity|].
  destruct s as [|b s]; [discriminate|].
  apply andb_prop in H. destruct H as [Hab Hps].
  apply Ascii.eqb_eq in Hab. subst b. simpl. f_equal. now apply IH.
Qed.

(** The first piece of a split is the text before the leftmost
    occurrence of the separator. *)
Lemma split_from_head (sep : str) (s cur : str) :
  contains sep s = true ->
  exists pre post,
    s = pre ++ sep ++ post /\
    nth 0 (split_from sep 0 cur s) [] = rev cur ++ pre /\
    forall pre' post', s = pre' ++ sep ++ post' -> (length pre <= length pre')%nat.
Proof.
  revert cur. induction s as [|c r IH]; intros cur H.
  - simpl in H. rewrite orb_false_r in H.
    destruct sep as [|a sep]; [|discriminate].
    exists [], []. simpl. rewrite app_nil_r. repeat split; auto.
    intros; lia.
  - cbn [split_from]. cbn [contains] in H.
    destruct (starts_with sep (c :: r)) eqn:Hsw.
    + exists [], (skipn (length sep) (c :: r)). simpl.
      rewrite app_nil_r. repeat split; try (intros; lia).
      now apply starts_with_split.
    + simpl in H. destruct (IH (c :: cur) H) as (pre & post & Hs & Hn & Hmin).
      exists (c :: pre), post. repeat split.
      * simpl. now rewrite Hs.
      * rewrite Hn. simpl. now rewrite <- app_assoc.
      * intros pre' post' Heq. destruct pre' as [|c' pre'].
        -- simpl in Heq. rewrite Heq, starts_with_app in Hsw. discriminate.
        -- simpl in Heq. injection Heq as _ Heq. simpl.
           specialize (Hmin _ _ Heq). lia.
Qed.

Lemma split_head (sep s : str) :
  contains sep s = true ->
  exists pre post,
    s = pre ++ sep ++ post /\
    nth 0 (split sep s) [] = pre /\
    forall pre' post', s = pre' ++ sep ++ post' -> (length pre <= length pre')%nat.
Proof.
  intros H. destruct (split_from_head sep s [] H) as (pre & post & A & B & C).
  exists pre, post. auto.
Qed.

(** Removing a one-character pattern keeps the other characters. *)
Lemma remove_single (c : ascii) (s : str) :
  remove [c] s = filter (fun x => negb (Ascii.eqb c x)) s.
Proof.
  unfold remove. induction s as [|x r IH]; [reflexivity|].
  cbn [remove_from starts_with filter length].
  destruct (Ascii.eqb c x); simpl; rewrite IH; reflexivity.
Qed.

Lemma remove_single_clean (c : ascii) (s : str) : ~ In c (remove [c] s).
Proof.
  rewrite remove_single. intros H. apply filter_In in H. destruct H as [_ H].
  rewrite Ascii.eqb_refl in H. discriminate.
Qed.

Lemma remove_single_incl (c x : ascii) (s : str) : In x (remove [c] s) -> In x s.
Proof.
  rewrite remove_single. intros H. now apply filter_In in H.
Qed.

Lemma lstrip_by_incl (p : ascii -> bool) (x : ascii) (s : str) :
  In x (lstrip_by p s) -> In x s.
Proof.
  induction s as [|c r IH]; simpl; [tauto|].
  destruct (p c); simpl; intuition.
Qed.

Lemma strip_by_incl (p : ascii -> bool) (x : ascii) (s : str) :
  In x (strip_by p s) -> In x s.
Proof.
  unfold strip_by. intros H. apply in_rev in H.
  apply lstrip_by_incl in H. apply in_rev in H.
  now apply lstrip_by_incl in H.
Qed.

Lemma digit_val_nonneg (c : ascii) : is_digit c = true -> 0 <= digit_val c <= 9.
Proof.
  unfold is_digit, digit_val. intros H. apply andb_prop in H.
  destruct H as [H1 H2]. apply N.leb_le in H1. apply N.leb_le in H2. lia.
Qed.

Lemma fold_digits_nonneg (ds : list Z) (acc : Z) :
  0 <= acc -> Forall (fun d => 0 <= d) ds ->
  0 <= fold_left (fun a d => 10 * a + d) ds acc.
Proof.
  revert acc. induction ds as [|d ds IH]; intros acc Ha Hd; cbn [fold_left];
    [assumption|].
  inversion Hd; subst. apply IH; [lia | assumption].
Qed.

Lemma py_int_nonneg (s : str) (n : Z) : py_int s = Some n -> 0 <= n.
Proof.
  unfold py_int. destruct (isdigit s) eqn:Hd; [|discriminate].
  intros H. injection H as <-. unfold digits_value.
  apply fold_digits_nonneg; [lia|].
  apply Forall_forall. intros d Hin. apply in_map_iff in Hin.
  destruct Hin as (c & <- & Hc).
  assert (Hall : forallb is_digit s = true) by (destruct s; [discriminate | exact Hd]).
  rewrite forallb_forall in Hall. now apply digit_val_nonneg, Hall.
Qed.

Lemma py_int_of_digits (s : str) : isdigit s = true -> exists n, py_int s = Some n.
Proof.
  intros H. unfold py_int. rewrite H. eauto.
Qed.

(** ** Facts about computations *)

Lemma value_bind {A B} (c : M A) (k : A -> M B) :
  value (bind c k) =
  match value c with
  | Ok a => value (k a)
  | Raise e => Raise e
  end.
Proof.
  unfold value, bind. destruct c as [out [a|e]]; simpl; [|reflexivity].
  destruct (k a); reflexivity.
Qed.

Lemma value_ret {A} (a : A) : value (ret a) = Ok a.
Proof. reflexivity. Qed.

Lemma value_or_value_error {A} (o : option A) :
  value (or_value_error o) =
  match o with
  | Some a => Ok a
  | None => Raise ValueError
  end.
Proof. destruct o; reflexivity. Qed.

Lemma value_call_parse_date (s : str) :
  value (call_parse_date s) = Ok (fst (parse_date s)).
Proof. unfold call_parse_date. destruct (parse_date s); reflexivity. Qed.

Lemma value_iloc (row : list cell) (k : nat) :
  value (iloc row k) =
  match nth_error row k with
  | Some c => Ok c
  | None => Raise IndexError
  end.
Proof. unfold iloc. destruct (nth_error row k); reflexivity. Qed.

(** The outcome of the body of the [try], field by field. *)
Lemma build_value (cf fo : option str) (row : list cell) :
  value (build cf fo row) =
  match nth_error row 0 with
  | None => Raise IndexError
  | Some c0 =>
      if notna c0 && isdigit (strip (to_str c0)) then
        match py_int (strip (to_str c0)) with
        | None => Raise ValueError
        | Some n =>
            match value (units_field row) with
            | Raise e => Raise e
            | Ok u =>
                match value (purchase_date_field row) with
                | Raise e => Raise e
                | Ok None => Ok None
                | Ok (Some d) =>
                    match value (nav_field row 4) with
                    | Raise e => Raise e
                    | Ok pn =>
                        match value (redemption_date_field row) with
                        | Raise e => Raise e
                        | Ok rd =>
                            match value (nav_field row 10) with
                            | Raise e => Raise e
                            | Ok rn => Ok (Some (record_of cf fo row n u d pn rd rn))
                            end
                        end
                    end
                end
            end
        end
      else Ok None
  end.
Proof.
  unfold build. rewrite value_bind, value_iloc.
  destruct (nth_error row 0) as [c0|]; [|reflexivity].
  destruct (notna c0 && isdigit (strip (to_str c0))); [|reflexivity].
  rewrite value_bind, value_or_value_error.
  destruct (py_int (strip (to_str c0))) as [n|]; [|reflexivity].
  rewrite value_bind. destruct (value (units_field row)) as [u|e]; [|reflexivity].
  rewrite value_bind.
  destruct (value (purchase_date_field row)) as [[d|]|e]; try reflexivity.
  rewrite value_bind. destruct (value (nav_field row 4)) as [pn|e]; [|reflexivity].
  rewrite value_bind.
  destruct (value (redemption_date_field row)) as [rd|e]; [|reflexivity].
  rewrite value_bind. destruct (value (nav_field row 10)) as [rn|e]; reflexivity.
Qed.

(** What one iteration does to the loop variables on a row that is no
    header line. *)
Lemma step_data_row (st : ParseContext) (row : list cell) :
  is_fund_header row = false -> is_folio_header row = false ->
  transactions (step st row) =
    match value (build (current_fund st) (current_folio st) row) with
    | Ok (Some t) => transactions st ++ [t]
    | _ => transactions st
    end /\
  current_fund (step st row) = current_fund st /\
  current_folio (step st row) = current_folio st.
Proof.
  intros Hf Ho. unfold step, value. rewrite Hf, Ho.
  destruct (build (current_fund st) (current_folio st) row) as [out [[t|]|[|]]];
    simpl; auto.
Qed.

(** On any row, an iteration adds at most the record the body built. *)
Lemma step_transactions (st : ParseContext) (row : list cell) :
  transactions (step st row) = transactions st \/
  exists t, value (build (current_fund st) (current_folio st) row) = Ok (Some t) /\
            is_fund_header row = false /\
            transactions (step st row) = transactions st ++ [t].
Proof.
  destruct (is_fund_header row) eqn:Hf.
  - left. unfold step. rewrite Hf. reflexivity.
  - destruct (is_folio_header row) eqn:Ho.
    + left. unfold step. rewrite Hf, Ho. reflexivity.
    + destruct (step_data_row st row Hf Ho) as (Ht & _ & _).
      destruct (value (build (current_fund st) (current_folio st) row))
        as [[t|]|e] eqn:Hb; auto.
      right. exists t. auto.
Qed.

(** The fields of a record the body built. *)
Lemma build_record (cf fo : option str) (row : list cell) (t : Transaction) :
  value (build cf fo row) = Ok (Some t) ->
  exists s0 n u d pn rd rn,
    nth_error row 0 = Some (Some s0) /\ isdigit (strip s0) = true /\
    py_int (strip s0) = Some n /\
    value (units_field row) = Ok u /\
    value (purchase_date_field row) = Ok (Some d) /\
    value (nav_field row 4) = Ok pn /\
    value (redemption_date_field row) = Ok rd /\
    value (nav_field row 10) = Ok rn /\
    t = record_of cf fo row n u d pn rd rn.
Proof.
  rewrite build_value.
  destruct (nth_error row 0) as [[s0|]|]; cbn [notna to_str andb]; try discriminate.
  destruct (isdigit (strip s0)) eqn:Hd; try discriminate.
  destruct (py_int (strip s0)) as [n|] eqn:Hn; try discriminate.
  destruct (value (units_field row)) as [u|] eqn:Hu; try discriminate.
  destruct (value (purchase_date_field row)) as [[d|]|] eqn:Hp; try discriminate.
  destruct (value (nav_field row 4)) as [pn|] eqn:Hpn; try discriminate.
  destruct (value (redemption_date_field row)) as [rd|] eqn:Hrd; try discriminate.
  destruct (value (nav_field row 10)) as [rn|] eqn:Hrn; try discriminate.
  intros H. injection H as <-.
  exists s0, n, u, d, pn, rd, rn. repeat split; auto.
Qed.

(** The purchase date field holds what [parse_date] makes of cell 2. *)
Lemma purchase_date_field_value (row : list cell) :
  value (purchase_date_field row) =
  match nth_error row 2 with
  | None => Raise IndexError
  | Some _ => Ok (purchase_date_of row)
  end.
Proof.
  unfold purchase_date_field, purchase_date_of.
  rewrite value_bind, value_iloc.
  destruct (nth_error row 2) as [[s|]|]; try reflexivity.
  cbn [notna to_str].
  destruct (str_eqb (strip s) []) eqn:He;
    [apply str_eqb_eq in He; rewrite He; reflexivity|].
  destruct (str_eqb (strip s) (lit "nan")) eqn:Hn; cbn [negb andb].
  - apply str_eqb_eq in Hn. rewrite Hn. reflexivity.
  - apply value_call_parse_date.
Qed.

(** ** Facts about the scan *)

Lemma scan_cons (st : ParseContext) (row : list cell) (rest : list (list cell)) :
  scan st (row :: rest) = scan (step st row) rest.
Proof. reflexivity. Qed.

Lemma scan_app (st : ParseContext) (rows rest : list (list cell)) :
  scan st (rows ++ rest) = scan (scan st rows) rest.
Proof. unfold scan. apply fold_left_app. Qed.

(** A property of every record the body can build from a row of the sheet
    holds of every record the scan collects. *)
Lemma scan_records (P : Transaction -> Prop) (df : list (list cell)) :
  (forall cf fo row t,
      In row df -> value (build cf fo row) = Ok (Some t) -> P t) ->
  forall st, Forall P (transactions st) -> Forall P (transactions (scan st df)).
Proof.
  induction df as [|row rest IH]; intros Hb st Hst; [exact Hst|].
  rewrite scan_cons. apply IH.
  - intros cf fo r t Hin. apply Hb. now right.
  - destruct (step_transactions st row) as [-> | (t & Ht & _ & ->)]; [exact Hst|].
    apply Forall_app. split; [exact Hst|].
    constructor; [|constructor]. eapply Hb; [now left | exact Ht].
Qed.

(** A row that is no fund name line leaves the current fund alone, and the
    record it may add carries that fund. *)
Lemma step_keeps_fund (st : ParseContext) (row : list cell) :
  is_fund_header row = false ->
  current_fund (step st row) = current_fund st /\
  exists new,
    transactions (step st row) = transactions st ++ new /\
    Forall (fun t => fund_name t = current_fund st) new.
Proof.
  intros Hf. destruct (is_folio_header row) eqn:Ho.
  - unfold step. rewrite Hf, Ho. simpl. split; [reflexivity|].
    exists []. rewrite app_nil_r. auto.
  - destruct (step_data_row st row Hf Ho) as (Ht & Hc & _).
    split; [exact Hc|].
    destruct (value (build (current_fund st) (current_folio st) row))
      as [[t|]|e] eqn:Hb.
    + exists [t]. split; [exact Ht|]. constructor; [|constructor].
      apply build_record in Hb.
      destruct Hb as (s0 & n & u & d & pn & rd & rn & _ & _ & _ & _ & _ & _ & _ & _ & ->).
      reflexivity.
    + exists []. rewrite app_nil_r. auto.
    + exists []. rewrite app_nil_r. auto.
Qed.

Lemma scan_keeps_fund (rows : list (list cell)) (st : ParseContext) :
  forallb (fun r => negb (is_fund_header r)) rows = true ->
  current_fund (scan st rows) = current_fund st /\
  exists new,
    transactions (scan st rows) = transactions st ++ new /\
    Forall (fun t => fund_name t = current_fund st) new.
Proof.
  revert st. induction rows as [|row rest IH]; intros st H.
  - simpl. split; [reflexivity|]. exists []. rewrite app_nil_r. auto.
  - simpl in H. apply andb_prop in H. destruct H as [Hrow Hrest].
    apply negb_true_iff in Hrow.
    destruct (step_keeps_fund st row Hrow) as (Hc & new1 & Ht1 & Hf1).
    destruct (IH (step st row) Hrest) as (Hc2 & new2 & Ht2 & Hf2).
    rewrite scan_cons. split; [congruence|].
    exists (new1 ++ new2). split.
    + rewrite Ht2, Ht1. now rewrite app_assoc.
    + apply Forall_app. split; [exact Hf1|].
      rewrite Hc in Hf2. exact Hf2.
Qed.

(** ** The claims *)

(** C2.  Every record the parser emits has a purchase date: it holds of
    every record collected by the scan and of every record
    [parse_excel_data] returns; a row whose cell 2 gives no date adds no
    record, and the scan goes on with the next row. *)
Theorem purchase_date_never_null :
  (forall df t, In t (transactions (scan initial df)) -> purchase_date t <> None) /\
  (forall df ts t, parse_excel_data df = Some ts -> In t ts -> purchase_date t <> None) /\
  (forall st row,
      purchase_date_of row = None -> transactions (step st row) = transactions st) /\
  (forall st row rest, scan st (row :: rest) = scan (step st row) rest).
Proof.
  assert (Hall : forall df t,
             In t (transactions (scan initial df)) -> purchase_date t <> None).
  { intros df t Hin.
    assert (HF : Forall (fun t => purchase_date t <> None)
                        (transactions (scan initial df))).
    { apply scan_records; [|constructor].
      intros cf fo row r _ Hb. apply build_record in Hb.
      destruct Hb as (s0 & n & u & d & pn & rd & rn & _ & _ & _ & _ & _ & _ & _ & _ & ->).
      discriminate. }
    rewrite Forall_forall in HF. now apply HF. }
  split; [exact Hall|]. split; [|split].
  - intros df ts t Hp Hin. apply (Hall df). unfold parse_excel_data in Hp.
    destruct (transactions (scan initial df)); [discriminate|].
    injection Hp as <-. exact Hin.
  - intros st row Hnone.
    destruct (step_transactions st row) as [H | (t & Hb & _ & _)]; [exact H|].
    exfalso. apply build_record in Hb.
    destruct Hb as (s0 & n & u & d & pn & rd & rn & _ & _ & _ & _ & Hp & _).
    rewrite purchase_date_field_value in Hp.
    destruct (nth_error row 2); [|discriminate]. congruence.
  - intros. apply scan_cons.
Qed.

Lemma purchase_date_never_null_witness :
  let row := [txt "3"; txt "1"; txt "not a date"] in
  purchase_date_of row = None /\
  transactions (step initial row) = transactions initial.
Proof.
  split.
  - vm_compute. reflexivity.
  - apply (proj1 (proj2 (proj2 purchase_date_never_null))). vm_compute. reflexivity.
Defined.

(** C9, as the specification states it, fails: a first cell ["0"] is made
    of digits only, so the row is admitted and its record carries the
    transaction number 0, which is not positive. *)
Lemma zero_transaction_number :
  let sheet := [[txt "0"; txt "1"; txt "Aug 09, 2023"]] in
  exists t,
    In t (transactions (scan initial sheet)) /\
    transaction_number t = 0 /\ ~ 0 < transaction_number t.
Proof.
  eexists. split; [vm_compute; left; reflexivity|].
  split; [reflexivity | vm_compute; discriminate].
Qed.

(** C9, amended.  The transaction number of every emitted record is a
    non-negative integer, read from cell 0 of a row of the sheet whose
    cell 0 is present and, once surrounding blanks are trimmed, is made of
    digits only. *)
Theorem transaction_number_from_digits (df : list (list cell)) (t : Transaction) :
  In t (transactions (scan initial df)) ->
  0 <= transaction_number t /\
  exists row s0,
    In row df /\ nth_error row 0 = Some (Some s0) /\
    isdigit (strip s0) = true /\
    py_int (strip s0) = Some (transaction_number t).
Proof.
  intros Hin.
  assert (HF : Forall (fun t => 0 <= transaction_number t /\
                         exists row s0,
                           In row df /\ nth_error row 0 = Some (Some s0) /\
                           isdigit (strip s0) = true /\
                           py_int (strip s0) = Some (transaction_number t))
                      (transactions (scan initial df))).
  { apply scan_records; [|constructor].
    intros cf fo row r Hrow Hb. apply build_record in Hb.
    destruct Hb as (s0 & n & u & d & pn & rd & rn & H0 & Hd & Hn & _ & _ & _ & _ & _ & ->).
    simpl. split; [now apply (py_int_nonneg (strip s0))|].
    exists row, s0. auto. }
  rewrite Forall_forall in HF. now apply HF.
Qed.

Lemma transaction_number_from_digits_witness :
  exists t,
    In t (transactions (scan initial sample_sheet)) /\
    transaction_number t = 2 /\ 0 <= transaction_number t.
Proof.
  eexists (nth 1 (transactions (scan initial sample_sheet)) _).
  assert (Hin : In (nth 1 (transactions (scan initial sample_sheet))
                       (record_of None None [] 0 fzero (mkdate 1 1 1) fzero None fzero))
                   (transactions (scan initial sample_sheet))).
  { vm_compute. right. left. reflexivity. }
  split; [exact Hin|]. split; [vm_compute; reflexivity|].
  exact (proj1 (transaction_number_from_digits sample_sheet _ Hin)).
Defined.

(** C4.  A row whose text holds the fund markers is a fund name line: the
    current fund becomes the trimmed text before the leftmost ["[ISIN:"],
    nothing else is done with the row (no folio is read from it and no
    record is built, whatever else it holds), and every record added by
    the rows that follow, up to the next fund name line, carries that fund
    name. *)
Theorem fund_header_sets_current_fund (st : ParseContext) (row : list cell) :
  is_fund_header row = true ->
  (exists pre post,
      row_str row = pre ++ isin_marker ++ post /\
      (forall pre' post',
          row_str row = pre' ++ isin_marker ++ post' ->
          (length pre <= length pre')%nat) /\
      current_fund (step st row) = Some (strip pre)) /\
  transactions (step st row) = transactions st /\
  current_folio (step st row) = current_folio st /\
  printed (step st row) = printed st /\
  (forall rows,
      forallb (fun r => negb (is_fund_header r)) rows = true ->
      current_fund (scan st (row :: rows)) = current_fund (step st row) /\
      exists new,
        transactions (scan st (row :: rows)) = transactions st ++ new /\
        Forall (fun t => fund_name t = current_fund (step st row)) new).
Proof.
  intros Hh.
  assert (Hstep : step st row =
                  mkContext (transactions st)
                    (Some (strip (nth 0 (split isin_marker (row_str row)) [])))
                    (current_folio st) (printed st)).
  { unfold step. rewrite Hh. reflexivity. }
  split; [|split; [|split; [|split]]]; try (rewrite Hstep; reflexivity).
  - unfold is_fund_header in Hh. apply andb_prop in Hh. destruct Hh as [Hi _].
    destruct (split_head isin_marker (row_str row) Hi) as (pre & post & Hs & Hn & Hmin).
    exists pre, post. split; [exact Hs|]. split; [exact Hmin|].
    rewrite Hstep. simpl. now rewrite Hn.
  - intros rows Hrows. rewrite scan_cons.
    destruct (scan_keeps_fund rows (step st row) Hrows) as (Hc & new & Ht & Hf).
    split; [exact Hc|]. exists new. split; [|exact Hf].
    rewrite Ht, Hstep. reflexivity.
Qed.

Lemma fund_header_sets_current_fund_witness :
  let header := [txt "Fund A [ISIN:XX123] (Growth)"; txt "Folio No: 5"] in
  is_fund_header header = true /\
  current_fund (step initial header) = Some (lit "Fund A") /\
  current_folio (step initial header) = None /\
  exists new,
    transactions (scan initial (header :: tl sample_sheet)) = [] ++ new /\
    Forall (fun t => fund_name t = current_fund (step initial header)) new.
Proof.
  set (header := [txt "Fund A [ISIN:XX123] (Growth)"; txt "Folio No: 5"]).
  assert (Hh : is_fund_header header = true) by (vm_compute; reflexivity).
  destruct (fund_header_sets_current_fund initial header Hh)
    as (_ & _ & Hfolio & _ & Hrows).
  split; [exact Hh|]. split; [vm_compute; reflexivity|].
  split; [exact Hfolio|].
  apply (Hrows (tl sample_sheet)). vm_compute. reflexivity.
Defined.

(** ** Facts about the split *)

Lemma dt_ltb_spec (a b : datetime) :
  dt_ltb a b = true <->
  year a < year b \/
  (year a = year b /\ (month a < month b \/ (month a = month b /\ day a < day b))).
Proof.
  unfold dt_ltb.
  rewrite orb_true_iff, andb_true_iff, orb_true_iff, andb_true_iff.
  rewrite !Z.ltb_lt, !Z.eqb_eq. tauto.
Qed.

(** [a >= b] is the negation of [a < b]. *)
Lemma dt_geb_ltb (a b : datetime) : dt_geb a b = negb (dt_ltb a b).
Proof.
  unfold dt_geb, dt_ltb. lia.
Qed.

Lemma filter_split_perm {A} (p q : A -> bool) (l : list A) :
  (forall x, In x l -> q x = negb (p x)) ->
  Permutation (filter p l ++ filter q l) l.
Proof.
  induction l as [|x l IH]; intros H; [constructor|].
  simpl. rewrite (H x (or_introl eq_refl)).
  assert (IH' : Permutation (filter p l ++ filter q l) l)
    by (apply IH; intros y Hy; apply H; now right).
  destruct (p x); simpl.
  - now constructor.
  - apply Permutation_sym, Permutation_cons_app, Permutation_sym, IH'.
Qed.

Lemma redeemed_has_date (df : list Transaction) (t : Transaction) :
  In t (redeemed_transactions df) ->
  exists d, redemption_date t = Some d.
Proof.
  unfold redeemed_transactions. intros H. apply filter_In in H.
  destruct H as [_ H]. destruct (redemption_date t) as [d|]; [eauto|discriminate].
Qed.

Lemma col_ge_lt (df : list Transaction) (t : Transaction) :
  In t (redeemed_transactions df) ->
  col_ge (redemption_date t) TAX_CHANGE_DATE
  = negb (col_lt (redemption_date t) TAX_CHANGE_DATE).
Proof.
  intros H. destruct (redeemed_has_date df t H) as [d Hd].
  rewrite Hd. simpl. apply dt_geb_ltb.
Qed.

(** C5.  The realized records are those of the frame with a purchase date
    and a redemption date.  The two period frames are taken from them by
    the redemption date alone, compared with 2024-07-23: a realized record
    is in the first frame when its redemption date is earlier and in the
    second otherwise, never in both, and the two frames together are a
    rearrangement of the realized records, so their sizes add up to the
    realized count.  [analyze_transactions] stores exactly these two
    frames whenever there is a realized record. *)
Theorem redemption_date_partition (df : list Transaction) :
  let realized := redeemed_transactions df in
  let before := before_july_23 df in
  let after := after_july_23 df in
  TAX_CHANGE_DATE = mkdate 2024 7 23 /\
  (forall t, In t realized <->
             In t df /\ purchase_date t <> None /\ redemption_date t <> None) /\
  (forall t, In t before <->
             In t realized /\
             exists d, redemption_date t = Some d /\ dt_ltb d TAX_CHANGE_DATE = true) /\
  (forall t, In t after <->
             In t realized /\
             exists d, redemption_date t = Some d /\ dt_ltb d TAX_CHANGE_DATE = false) /\
  (forall t, In t realized ->
             (In t before /\ ~ In t after) \/ (In t after /\ ~ In t before)) /\
  Permutation (before ++ after) realized /\
  (length before + length after = length realized)%nat /\
  analyze_transactions (Some df) =
    (if Nat.eqb (length realized) 0 then None else Some (before, after)).
Proof.
  intros realized before after.
  assert (Hreal : forall t, In t realized <->
             In t df /\ purchase_date t <> None /\ redemption_date t <> None).
  { intros t. unfold realized, redeemed_transactions, valid_transactions.
    rewrite !filter_In.
    destruct (purchase_date t), (redemption_date t); simpl;
      intuition (try discriminate; try congruence). }
  assert (Hbefore : forall t, In t before <->
             In t realized /\
             exists d, redemption_date t = Some d /\ dt_ltb d TAX_CHANGE_DATE = true).
  { intros t. unfold before, before_july_23. rewrite filter_In. fold realized.
    split; intros [Hr H]; (split; [exact Hr|]).
    - destruct (redemption_date t) as [d|]; [|discriminate]. eauto.
    - destruct H as (d & -> & H). exact H. }
  assert (Hafter : forall t, In t after <->
             In t realized /\
             exists d, redemption_date t = Some d /\ dt_ltb d TAX_CHANGE_DATE = false).
  { intros t. unfold after, after_july_23. rewrite filter_In. fold realized.
    split; intros [Hr H]; (split; [exact Hr|]).
    - destruct (redemption_date t) as [d|]; [|discriminate]. exists d.
      split; [reflexivity|]. simpl in H. rewrite dt_geb_ltb in H.
      now apply negb_true_iff in H.
    - destruct H as (d & -> & H). simpl. rewrite dt_geb_ltb, H. reflexivity. }
  assert (Hperm : Permutation (before ++ after) realized).
  { apply filter_split_perm. intros t Ht. now apply (col_ge_lt df). }
  split; [reflexivity|]. split; [exact Hreal|]. split; [exact Hbefore|].
  split; [exact Hafter|]. split; [|split; [exact Hperm|split]].
  - intros t Ht. destruct (redeemed_has_date df t Ht) as [d Hd].
    destruct (dt_ltb d TAX_CHANGE_DATE) eqn:Hlt.
    + left. split.
      * apply Hbefore. split; [exact Ht|]. eauto.
      * intros Ha. apply Hafter in Ha. destruct Ha as (_ & d' & Hd' & Hlt').
        congruence.
    + right. split.
      * apply Hafter. split; [exact Ht|]. eauto.
      * intros Hb. apply Hbefore in Hb. destruct Hb as (_ & d' & Hd' & Hlt').
        congruence.
  - rewrite <- length_app. now apply Permutation_length.
  - unfold analyze_transactions. fold realized before after.
    destruct (Nat.eqb (length (valid_transactions df)) 0) eqn:Hv; [|reflexivity].
    apply Nat.eqb_eq in Hv. apply length_zero_iff_nil in Hv.
    unfold realized, redeemed_transactions. rewrite Hv. reflexivity.
Qed.

Lemma redemption_date_partition_witness :
  exists df t,
    parse_excel_data sample_sheet = Some df /\
    In t (redeemed_transactions df) /\
    purchase_date t = Some (mkdate 2023 8 9) /\
    redemption_date t = Some (mkdate 2024 8 1) /\
    In t (after_july_23 df) /\ ~ In t (before_july_23 df).
Proof.
  destruct (parse_excel_data sample_sheet) as [df|] eqn:Hdf;
    [|vm_compute in Hdf; discriminate].
  exists df, (nth 1 df (record_of None None [] 0 fzero (mkdate 1 1 1) fzero None fzero)).
  assert (Hin : In (nth 1 df (record_of None None [] 0 fzero (mkdate 1 1 1) fzero None fzero))
                   (redeemed_transactions df)).
  { vm_compute in Hdf. injection Hdf as <-. vm_compute. right. left. reflexivity. }
  split; [reflexivity|]. split; [exact Hin|].
  split; [vm_compute in Hdf; injection Hdf as <-; reflexivity|].
  split; [vm_compute in Hdf; injection Hdf as <-; reflexivity|].
  destruct (redemption_date_partition df) as (_ & _ & _ & _ & Hone & _).
  destruct (Hone _ Hin) as [[Hb _] | [Ha Hnb]]; [|split; assumption].
  exfalso. vm_compute in Hdf. injection Hdf as <-.
  apply (proj1 (proj1 (proj2 (proj2 (redemption_date_partition _))) _)) in Hb.
  destruct Hb as (_ & d & Hd & Hlt). vm_compute in Hd. injection Hd as <-.
  vm_compute in Hlt. discriminate.
Defined.

(** ** Facts about the field normalisers *)

(** The loop over the formats returns the parse of the first format, in
    list order, that accepts the text. *)
Lemma try_formats_first (s : str) (fmts : list str) (i : nat) (fmt : str)
  (d : datetime) :
  nth_error fmts i = Some fmt ->
  strptime s fmt = Some d ->
  (forall j fmt', (j < i)%nat -> nth_error fmts j = Some fmt' ->
                  strptime s fmt' = None) ->
  try_formats s fmts = Some d.
Proof.
  revert i. induction fmts as [|f rest IH]; intros i Hi Hd Hbefore.
  - destruct i; discriminate.
  - destruct i as [|i]; simpl in Hi.
    + injection Hi as ->. simpl. now rewrite Hd.
    + simpl. rewrite (Hbefore 0%nat f); [|lia|reflexivity].
      apply (IH i); [exact Hi | exact Hd |].
      intros j fmt' Hj Hn. apply (Hbefore (S j)); [lia | exact Hn].
Qed.

Lemma try_formats_none (s : str) (fmts : list str) :
  (forall fmt, In fmt fmts -> strptime s fmt = None) ->
  try_formats s fmts = None.
Proof.
  induction fmts as [|f rest IH]; intros H; [reflexivity|].
  simpl. rewrite (H f); [|now left]. apply IH. intros fmt Hin. apply H. now right.
Qed.

Lemma parse_date_tries_formats (s : str) :
  s <> [] -> strip s <> lit "-" ->
  parse_date s =
  match try_formats (strip_char dquote (strip s)) formats with
  | Some d => (Some d, [])
  | None => (None, [warning (strip_char dquote (strip s))])
  end.
Proof.
  intros He Hd. unfold parse_date.
  apply str_eqb_neq in He. apply str_eqb_neq in Hd. now rewrite He, Hd.
Qed.

(** C3.  The formats are tried in the order abbreviated month, full
    month, day/month/year, year-month-day, day-month-year, and the parse
    of the first one that accepts the text is returned; when none accepts
    it a warning is printed and no date is returned.  The empty text and
    the placeholder ["-"] give no date without any format being tried.
    The examples of the specification hold, and a slash date is read day
    first. *)
Theorem parse_date_first_format :
  formats = [lit "%b %d, %Y"; lit "%B %d, %Y"; lit "%d/%m/%Y";
             lit "%Y-%m-%d"; lit "%d-%m-%Y"] /\
  (forall s i fmt d,
      s <> [] -> strip s <> lit "-" ->
      nth_error formats i = Some fmt ->
      strptime (strip_char dquote (strip s)) fmt = Some d ->
      (forall j fmt', (j < i)%nat -> nth_error formats j = Some fmt' ->
                      strptime (strip_char dquote (strip s)) fmt' = None) ->
      parse_date s = (Some d, [])) /\
  (forall s,
      s <> [] -> strip s <> lit "-" ->
      (forall fmt, In fmt formats ->
                   strptime (strip_char dquote (strip s)) fmt = None) ->
      parse_date s = (None, [warning (strip_char dquote (strip s))])) /\
  parse_date [] = (None, []) /\
  parse_date (lit "-") = (None, []) /\
  parse_date (lit "Aug 09, 2023") = (Some (mkdate 2023 8 9), []) /\
  parse_date (lit "09/08/2023") = (Some (mkdate 2023 8 9), []) /\
  parse_date (lit "2023-08-09") = (Some (mkdate 2023 8 9), []) /\
  parse_date (lit "13/08/2023") = (Some (mkdate 2023 8 13), []) /\
  parse_date (lit "08/13/2023")
    = (None, [lit "Warning: Could not parse date '08/13/2023'"]) /\
  parse_date (lit "next week")
    = (None, [lit "Warning: Could not parse date 'next week'"]).
Proof.
  split; [reflexivity|]. split; [|split].
  - intros s i fmt d He Hd Hi Hp Hbefore.
    rewrite (parse_date_tries_formats s He Hd).
    now rewrite (try_formats_first _ formats i fmt d Hi Hp Hbefore).
  - intros s He Hd Hnone.
    rewrite (parse_date_tries_formats s He Hd).
    now rewrite (try_formats_none _ formats Hnone).
  - repeat split; vm_compute; reflexivity.
Qed.

Lemma parse_date_first_format_witness :
  parse_date (lit " 09-08-2023 ") = (Some (mkdate 2023 8 9), []).
Proof.
  apply (proj1 (proj2 parse_date_first_format) (lit " 09-08-2023 ") 4%nat
               (lit "%d-%m-%Y") (mkdate 2023 8 9)).
  - vm_compute. discriminate.
  - vm_compute. discriminate.
  - reflexivity.
  - vm_compute. reflexivity.
  - intros j fmt' Hj Hn.
    destruct j as [|[|[|[|j]]]]; try lia;
      vm_compute in Hn; injection Hn as <-; vm_compute; reflexivity.
Defined.

Lemma cleaned_no_comma (s : str) :
  ~ In ","%char (cleaned s) /\ ~ In dquote (cleaned s).
Proof.
  unfold cleaned, strip. split; intros H; apply strip_by_incl in H.
  - apply remove_single_incl in H.
    change (lit ",") with [","%char] in H.
    now apply remove_single_clean in H.
  - now apply remove_single_clean in H.
Qed.

(** C7.  [parse_currency] reads the rupee sign followed by
    ["1,23,456.78"] as 123456.78 and gives
    0.0 for ["-"] and for the empty text.  The text it hands to [float]
    has lost the rupee sign, the commas and the quotes; when [float]
    rejects that text the result is 0.0, and otherwise it is the value
    [float] read.  Being a function to floats, it raises nothing and
    prints nothing. *)
Theorem parse_currency_defaults :
  parse_currency (rupee ++ lit "1,23,456.78") = Finite (Qred 123456.78) /\
  parse_currency (lit "-") = fzero /\
  parse_currency [] = fzero /\
  cleaned (rupee ++ lit "1,23,456.78") = lit "123456.78" /\
  cleaned (dquote :: rupee ++ lit " 5,000" ++ [dquote]) = lit "5000" /\
  parse_currency (lit "N/A") = fzero /\
  (forall s, ~ In ","%char (cleaned s) /\ ~ In dquote (cleaned s)) /\
  (forall s, py_float (cleaned s) = None -> parse_currency s = fzero) /\
  (forall s v,
      strip s <> [] -> strip s <> lit "-" ->
      py_float (cleaned s) = Some v -> parse_currency s = v).
Proof.
  repeat split; try (vm_compute; reflexivity); try apply cleaned_no_comma.
  - intros s H. unfold parse_currency. rewrite H.
    destruct (_ || _); reflexivity.
  - intros s v He Hd Hv. unfold parse_currency. rewrite Hv.
    assert (Hs : s <> []) by (intros ->; apply He; reflexivity).
    apply str_eqb_neq in He. apply str_eqb_neq in Hd. apply str_eqb_neq in Hs.
    now rewrite He, Hd, Hs.
Qed.

Lemma parse_currency_defaults_witness :
  parse_currency (lit "12 rupees") = fzero /\
  parse_currency (lit "1,500.50") = Finite (Qred 1500.5).
Proof.
  split.
  - apply (proj1 (proj2 (proj2 (proj2 (proj2 (proj2 (proj2 (proj2
             parse_currency_defaults)))))))).
    vm_compute. reflexivity.
  - apply (proj2 (proj2 (proj2 (proj2 (proj2 (proj2 (proj2 (proj2
             parse_currency_defaults)))))))).
    + vm_compute. discriminate.
    + vm_compute. discriminate.
    + vm_compute. reflexivity.
Defined.

(** ** Facts about the record builder *)

Lemma has_transaction_number_inv (row : list cell) :
  has_transaction_number row = true ->
  exists s0 n,
    nth_error row 0 = Some (Some s0) /\ isdigit (strip s0) = true /\
    py_int (strip s0) = Some n.
Proof.
  unfold has_transaction_number.
  destruct (nth_error row 0) as [[s0|]|]; try discriminate.
  intros H. destruct (py_int_of_digits _ H) as [n Hn]. eauto.
Qed.

Lemma redemption_date_field_value (row : list cell) :
  value (redemption_date_field row) =
  Ok (if present row 8 && nonblank (at_ row 8)
      then fst (parse_date (strip (to_str (at_ row 8))))
      else None).
Proof.
  unfold redemption_date_field.
  destruct (present row 8 && nonblank (at_ row 8));
    [apply value_call_parse_date | reflexivity].
Qed.

(** A row with a transaction number, a purchase date and readable plain
    numbers yields a record. *)
Lemma build_emits (cf fo : option str) (row : list cell)
  (d : datetime) (u pn rn : pyfloat) :
  has_transaction_number row = true ->
  purchase_date_of row = Some d ->
  value (units_field row) = Ok u ->
  value (nav_field row 4) = Ok pn ->
  value (nav_field row 10) = Ok rn ->
  exists n rd,
    value (redemption_date_field row) = Ok rd /\
    value (build cf fo row) = Ok (Some (record_of cf fo row n u d pn rd rn)).
Proof.
  intros Hn Hd Hu Hpn Hrn.
  destruct (has_transaction_number_inv row Hn) as (s0 & n & H0 & Hdig & Hint).
  exists n. eexists. split; [apply redemption_date_field_value|].
  rewrite build_value, H0. cbn [notna to_str andb]. rewrite Hdig, Hint, Hu.
  rewrite purchase_date_field_value.
  assert (H2 : nth_error row 2 <> None).
  { unfold purchase_date_of in Hd. destruct (nth_error row 2); discriminate. }
  destruct (nth_error row 2); [|contradiction].
  rewrite Hd, Hpn, redemption_date_field_value, Hrn. reflexivity.
Qed.

(** A row whose plain numbers fail to read yields no record. *)
Lemma build_discards (cf fo : option str) (row : list cell) (e : exn) :
  value (units_field row) = Raise e \/
  value (nav_field row 4) = Raise e \/
  value (nav_field row 10) = Raise e ->
  forall t, value (build cf fo row) <> Ok (Some t).
Proof.
  intros H t Hb. apply build_record in Hb.
  destruct Hb as (s0 & n & u & d & pn & rd & rn & _ & _ & _ & Hu & _ & Hpn & _ & Hrn & _).
  destruct H as [H | [H | H]]; congruence.
Qed.

Lemma step_discards (st : ParseContext) (row : list cell) :
  (forall t, value (build (current_fund st) (current_folio st) row) <> Ok (Some t)) ->
  transactions (step st row) = transactions st.
Proof.
  intros H. destruct (step_transactions st row) as [Ht | (t & Hb & _)];
    [exact Ht | now apply H in Hb].
Qed.

Lemma present_short (row : list cell) (k : nat) :
  (length row <= k)%nat -> present row k = false.
Proof.
  intros H. unfold present.
  destruct (Nat.ltb_spec k (length row)); [lia | reflexivity].
Qed.

Lemma currency_field_short (row : list cell) (k : nat) :
  (length row <= k)%nat -> currency_field row k = fzero.
Proof.
  intros H. unfold currency_field. now rewrite present_short.
Qed.

Lemma nav_field_short (row : list cell) (k : nat) :
  (length row <= k)%nat -> nav_field row k = ret fzero.
Proof.
  intros H. unfold nav_field. now rewrite present_short.
Qed.

Lemma at_nth_error (row : list cell) (k : nat) (c : cell) :
  nth_error row k = Some c -> at_ row k = c /\ (k < length row)%nat.
Proof.
  intros H. split.
  - unfold at_. now apply nth_error_nth.
  - apply nth_error_Some. congruence.
Qed.

Lemma present_some (row : list cell) (k : nat) (s : str) :
  nth_error row k = Some (Some s) -> present row k = true /\ at_ row k = Some s.
Proof.
  intros H. destruct (at_nth_error row k _ H) as [Ha Hl].
  split; [|exact Ha]. unfold present. rewrite Ha.
  destruct (Nat.ltb_spec k (length row)); [reflexivity | lia].
Qed.

(** C1, as the specification states it, fails: in this row the purchase
    date parses and the purchase NAV (cell 4) is no number; [float] raises
    [ValueError], the row-level handler catches it, and the row leaves no
    record instead of a record with a NAV of 0.0. *)
Lemma nav_format_error_discards_row :
  let row := [txt "1"; txt "10"; txt "Aug 09, 2023"; txt "1,000.00"; txt "abc"] in
  has_transaction_number row = true /\
  purchase_date_of row = Some (mkdate 2023 8 9) /\
  py_float (lit "abc") = None /\
  build None None row = ([], Raise ValueError) /\
  transactions (step initial row) = [].
Proof. repeat split; vm_compute; reflexivity. Qed.

(** C1, amended.  On a transaction row whose purchase date parses: a
    currency cell that is no number leaves its field at 0.0 and raises
    nothing; when units and the two NAV cells read, the record is built
    and added, with the currency fields as [parse_currency] gives them; a
    units or NAV cell that [float] rejects raises [ValueError], which the
    row-level handler catches: the row adds no record and the current
    fund and folio are kept.  In every case the scan goes on with the
    next row. *)
Theorem secondary_field_errors (st : ParseContext) (row : list cell) (d : datetime) :
  is_fund_header row = false -> is_folio_header row = false ->
  has_transaction_number row = true ->
  purchase_date_of row = Some d ->
  (forall k s,
      nth_error row k = Some (Some s) -> py_float (cleaned s) = None ->
      currency_field row k = fzero) /\
  (forall u pn rn,
      value (units_field row) = Ok u ->
      value (nav_field row 4) = Ok pn ->
      value (nav_field row 10) = Ok rn ->
      exists t,
        transactions (step st row) = transactions st ++ [t] /\
        purchase_date t = Some d /\
        units t = u /\ purchase_nav t = pn /\ redemption_nav t = rn /\
        purchase_value t = currency_field row 3 /\
        redemption_value t = currency_field row 9 /\
        stcg t = currency_field row 11 /\
        ltcg t = currency_field row 12) /\
  (value (units_field row) = Raise ValueError \/
   value (nav_field row 4) = Raise ValueError \/
   value (nav_field row 10) = Raise ValueError ->
   transactions (step st row) = transactions st /\
   current_fund (step st row) = current_fund st /\
   current_folio (step st row) = current_folio st) /\
  (forall rest, scan st (row :: rest) = scan (step st row) rest).
Proof.
  intros Hf Ho Hn Hd.
  destruct (step_data_row st row Hf Ho) as (Ht & Hcf & Hco).
  split; [|split; [|split]].
  - intros k s Hk Hbad. unfold currency_field.
    destruct (present_some row k s Hk) as [-> ->]. simpl.
    unfold parse_currency. rewrite Hbad. destruct (_ || _); reflexivity.
  - intros u pn rn Hu Hpn Hrn.
    destruct (build_emits (current_fund st) (current_folio st) row d u pn rn
                Hn Hd Hu Hpn Hrn) as (n & rd & _ & Hb).
    rewrite Hb in Ht. eexists. split; [exact Ht|]. repeat split.
  - intros Hbad. split; [|split; assumption].
    apply step_discards. now apply (build_discards _ _ _ ValueError).
  - intros rest. apply scan_cons.
Qed.

Lemma secondary_field_errors_witness :
  let row := [txt "1"; txt "10"; txt "Aug 09, 2023"; txt "n/a"; txt "12.5"] in
  currency_field row 3 = fzero /\
  exists t,
    transactions (step initial row) = transactions initial ++ [t] /\
    purchase_date t = Some (mkdate 2023 8 9) /\
    purchase_value t = currency_field row 3.
Proof.
  set (row := [txt "1"; txt "10"; txt "Aug 09, 2023"; txt "n/a"; txt "12.5"]).
  destruct (secondary_field_errors initial row (mkdate 2023 8 9))
    as (Hcur & Hemit & _); try (vm_compute; reflexivity).
  split.
  - apply (Hcur 3%nat (lit "n/a")); vm_compute; reflexivity.
  - destruct (Hemit (Finite (Qred 10)) (Finite (Qred 12.5)) fzero)
      as (t & Ht & Hp & _ & _ & _ & Hpv & _); try (vm_compute; reflexivity).
    exists t. auto.
Defined.

Lemma step_without_purchase_date (st : ParseContext) (row : list cell) :
  purchase_date_of row = None -> transactions (step st row) = transactions st.
Proof.
  intros Hnone. apply step_discards. intros t Hb. apply build_record in Hb.
  destruct Hb as (s0 & n & u & d & pn & rd & rn & _ & _ & _ & _ & Hp & _).
  rewrite purchase_date_field_value in Hp.
  destruct (nth_error row 2); [|discriminate]. congruence.
Qed.

Lemma units_field_value (row : list cell) :
  value (units_field row) =
  match nth_error row 1 with
  | None => Raise IndexError
  | Some c =>
      if notna c && nonblank c
      then match py_float (remove (lit ",") (to_str c)) with
           | Some v => Ok v
           | None => Raise ValueError
           end
      else Ok fzero
  end.
Proof.
  unfold units_field. rewrite value_bind, value_iloc.
  destruct (nth_error row 1) as [c|]; [|reflexivity].
  destruct (notna c && nonblank c); [apply value_or_value_error | reflexivity].
Qed.

Lemma nav_field_value (row : list cell) (k : nat) :
  value (nav_field row k) =
  if present row k && nonblank (at_ row k)
  then match py_float (to_str (at_ row k)) with
       | Some v => Ok v
       | None => Raise ValueError
       end
  else Ok fzero.
Proof.
  unfold nav_field.
  destruct (present row k && nonblank (at_ row k));
    [apply value_or_value_error | reflexivity].
Qed.

Lemma nav_field_raises (row : list cell) (k : nat) (e : exn) :
  value (nav_field row k) = Raise e -> e = ValueError.
Proof.
  rewrite nav_field_value.
  destruct (present row k && nonblank (at_ row k)); [|discriminate].
  destruct (py_float (to_str (at_ row k))); [discriminate | congruence].
Qed.

Lemma nonblank_some (s : str) : nonblank (Some s) = negb (str_eqb (strip s) []).
Proof. reflexivity. Qed.

(** C6, as the specification states it, fails: a units cell that is no
    number raises [ValueError] and the row leaves no record (units is not
    set to 0.0), and a units cell holding a negative number gives a
    negative units value. *)
Lemma units_unparseable_or_negative :
  let bad := [txt "1"; txt "ten"; txt "Aug 09, 2023"] in
  let neg := [txt "1"; txt "-5"; txt "Aug 09, 2023"] in
  py_float (remove (lit ",") (lit "ten")) = None /\
  build None None bad = ([], Raise ValueError) /\
  transactions (step initial bad) = [] /\
  map units (transactions (step initial neg)) = [Finite (-5)].
Proof. repeat split; vm_compute; reflexivity. Qed.

(** C6, amended.  The units cell (cell 1) has its commas removed before
    [float] reads it.  The units field is 0 when its cell is blank, and a
    NAV field (cells 4 and 10) is 0 when its cell is blank or lies past
    the end of the row; a NAV cell without commas is read by [float].
    Text that [float] rejects raises [ValueError]: the row then adds no
    record.  The units and NAV values of a record are those [float]
    read; nothing makes units non-negative. *)
Theorem plain_number_fields (st : ParseContext) (row : list cell) :
  (forall s,
      nth_error row 1 = Some (Some s) -> strip s <> [] ->
      ~ In ","%char (remove (lit ",") s) /\
      value (units_field row) =
        match py_float (remove (lit ",") s) with
        | Some v => Ok v
        | None => Raise ValueError
        end) /\
  (forall c,
      nth_error row 1 = Some c ->
      c = None \/ (exists s, c = Some s /\ strip s = []) ->
      value (units_field row) = Ok fzero) /\
  (forall k,
      nth_error row k = None \/ nth_error row k = Some None \/
      (exists s, nth_error row k = Some (Some s) /\ strip s = []) ->
      value (nav_field row k) = Ok fzero) /\
  (forall k s,
      nth_error row k = Some (Some s) -> strip s <> [] -> ~ In ","%char s ->
      value (nav_field row k) =
        match py_float s with
        | Some v => Ok v
        | None => Raise ValueError
        end) /\
  (value (units_field row) = Raise ValueError \/
   value (nav_field row 4) = Raise ValueError \/
   value (nav_field row 10) = Raise ValueError ->
   transactions (step st row) = transactions st) /\
  (forall t,
      value (build (current_fund st) (current_folio st) row) = Ok (Some t) ->
      value (units_field row) = Ok (units t) /\
      value (nav_field row 4) = Ok (purchase_nav t) /\
      value (nav_field row 10) = Ok (redemption_nav t)).
Proof.
  split; [|split; [|split; [|split; [|split]]]].
  - intros s H1 Hs. split.
    + change (lit ",") with [","%char]. apply remove_single_clean.
    + rewrite units_field_value, H1. cbn [notna to_str andb].
      rewrite nonblank_some. apply str_eqb_neq in Hs. now rewrite Hs.
  - intros c H1 Hc. rewrite units_field_value, H1.
    destruct Hc as [-> | (s & -> & Hs)]; [reflexivity|].
    cbn [notna andb]. rewrite nonblank_some.
    apply str_eqb_eq in Hs. now rewrite Hs.
  - intros k Hk. rewrite nav_field_value.
    destruct Hk as [Hk | [Hk | (s & Hk & Hs)]].
    + apply nth_error_None in Hk. now rewrite present_short.
    + destruct (at_nth_error row k _ Hk) as [Ha _]. unfold present.
      rewrite Ha. simpl. now rewrite andb_false_r.
    + destruct (present_some row k s Hk) as [-> ->]. rewrite nonblank_some.
      apply str_eqb_eq in Hs. now rewrite Hs.
  - intros k s Hk Hs _. rewrite nav_field_value.
    destruct (present_some row k s Hk) as [-> ->]. rewrite nonblank_some.
    apply str_eqb_neq in Hs. now rewrite Hs.
  - intros Hbad. apply step_discards. now apply (build_discards _ _ _ ValueError).
  - intros t Hb. apply build_record in Hb.
    destruct Hb as (s0 & n & u & d & pn & rd & rn & _ & _ & _ & Hu & _ & Hpn & _ & Hrn & ->).
    auto.
Qed.

Lemma plain_number_fields_witness :
  let row := [txt "2"; txt "1,000"; txt "09/08/2023"; txt "2,000.00"; txt " "] in
  value (units_field row) = Ok (Finite (Qred 1000)) /\
  value (nav_field row 4) = Ok fzero /\
  value (nav_field row 10) = Ok fzero.
Proof.
  set (row := [txt "2"; txt "1,000"; txt "09/08/2023"; txt "2,000.00"; txt " "]).
  destruct (plain_number_fields initial row) as (Hu & _ & Hnav & _).
  split; [|split].
  - destruct (Hu (lit "1,000")) as [_ H];
      [reflexivity | vm_compute; discriminate |].
    rewrite H. vm_compute. reflexivity.
  - apply Hnav. right. right. exists (lit " ").
    split; vm_compute; reflexivity.
  - apply Hnav. left. reflexivity.
Defined.

(** C8, as the specification states it, fails: in a row of one column
    whose only cell is a transaction number, units (cell 1) lies past the
    end of the row and reading it raises [IndexError] instead of giving
    0.0; the handler catches it and the row leaves no record. *)
Lemma short_row_index_error :
  let row := [txt "7"] in
  (length row < 13)%nat /\
  has_transaction_number row = true /\
  build None None row = ([], Raise IndexError) /\
  transactions (step initial row) = [].
Proof. split; [simpl; lia | repeat split; vm_compute; reflexivity]. Qed.

(** C8, amended.  In a row of at least three columns the body of the
    [try] raises no [IndexError], and in the record it builds every field
    read from a column at or past the end of the row has its default: 0
    for the values, NAVs and gains, no date for the redemption date.  A
    row of fewer than three columns with a transaction number ends the
    body with an exception, reading cell 1 or cell 2; the handler catches
    it and the row adds no record. *)
Theorem trailing_columns_default (cf fo : option str) (row : list cell) :
  ((3 <= length row)%nat ->
   value (build cf fo row) <> Raise IndexError /\
   forall t,
     value (build cf fo row) = Ok (Some t) ->
     ((length row <= 3)%nat -> purchase_value t = fzero) /\
     ((length row <= 4)%nat -> purchase_nav t = fzero) /\
     ((length row <= 8)%nat -> redemption_date t = None) /\
     ((length row <= 9)%nat -> redemption_value t = fzero) /\
     ((length row <= 10)%nat -> redemption_nav t = fzero) /\
     ((length row <= 11)%nat -> stcg t = fzero) /\
     ((length row <= 12)%nat -> ltcg t = fzero)) /\
  ((length row < 3)%nat ->
   (has_transaction_number row = true ->
    exists e, value (build cf fo row) = Raise e) /\
   forall st, transactions (step st row) = transactions st).
Proof.
  split.
  - intros Hlen. split.
    + rewrite build_value.
      destruct (nth_error row 0) as [c0|] eqn:H0;
        [|apply nth_error_None in H0; lia].
      destruct (notna c0 && isdigit (strip (to_str c0))); [|discriminate].
      destruct (py_int (strip (to_str c0))); [|discriminate].
      rewrite units_field_value.
      destruct (nth_error row 1) as [c1|] eqn:H1;
        [|apply nth_error_None in H1; lia].
      destruct (notna c1 && nonblank c1);
        [destruct (py_float (remove (lit ",") (to_str c1))); [|discriminate]|].
      all: rewrite purchase_date_field_value.
      all: destruct (nth_error row 2) as [c2|] eqn:H2;
        [|apply nth_error_None in H2; lia].
      all: destruct (purchase_date_of row); [|discriminate].
      all: destruct (value (nav_field row 4)) as [pn|e] eqn:Hpn;
        [|apply nav_field_raises in Hpn; subst e; discriminate].
      all: rewrite redemption_date_field_value.
      all: destruct (value (nav_field row 10)) as [rn|e] eqn:Hrn;
        [discriminate | apply nav_field_raises in Hrn; subst e; discriminate].
    + intros t Hb. apply build_record in Hb.
      destruct Hb as (s0 & n & u & d & pn & rd & rn & _ & _ & _ & _ & _ & Hpn & Hrd & Hrn & ->).
      cbn [purchase_value purchase_nav redemption_date redemption_value
           redemption_nav stcg ltcg record_of].
      repeat split; intros Hk; try (now apply currency_field_short).
      * rewrite (nav_field_short row 4 Hk) in Hpn. now injection Hpn.
      * rewrite redemption_date_field_value, (present_short row 8 Hk) in Hrd.
        now injection Hrd.
      * rewrite (nav_field_short row 10 Hk) in Hrn. now injection Hrn.
  - intros Hlen.
    assert (H2 : nth_error row 2 = None) by (apply nth_error_None; lia).
    split.
    + intros Hn.
      destruct (has_transaction_number_inv row Hn) as (s0 & n & H0 & Hd & Hi).
      rewrite build_value, H0. cbn [notna to_str andb]. rewrite Hd, Hi.
      destruct (value (units_field row)) as [u|e]; [|eauto].
      rewrite purchase_date_field_value, H2. eauto.
    + intros st. apply step_without_purchase_date.
      unfold purchase_date_of. now rewrite H2.
Qed.

Lemma trailing_columns_default_witness :
  let row := [txt "4"; txt "2.5"; txt "2023-08-09"; txt "250.00"] in
  exists t,
    value (build None None row) = Ok (Some t) /\
    purchase_nav t = fzero /\ redemption_date t = None /\ ltcg t = fzero.
Proof.
  set (row := [txt "4"; txt "2.5"; txt "2023-08-09"; txt "250.00"]).
  destruct (value (build None None row)) as [[t|]|e] eqn:Hb;
    try (vm_compute in Hb; discriminate).
  exists t. split; [exact Hb|].
  destruct (proj1 (trailing_columns_default None None row)) as [_ H];
    [vm_compute; lia|].
  destruct (H t Hb) as (_ & Hpn & Hrd & _ & _ & _ & Hl).
  split; [apply Hpn; vm_compute; lia|].
  split; [apply Hrd; vm_compute; lia | apply Hl; vm_compute; lia].
Defined.

(** A record without a redemption date is no realized record: dropping
    it from the frame changes neither the realized records nor the two
    period frames. *)
Lemma redeemed_skip (df1 df2 : list Transaction) (t : Transaction) :
  redemption_date t = None ->
  redeemed_transactions (df1 ++ t :: df2) = redeemed_transactions (df1 ++ df2).
Proof.
  intros H. unfold redeemed_transactions, valid_transactions.
  rewrite !filter_app. cbn [filter].
  destruct (has_date (purchase_date t)); [|reflexivity].
  cbn [filter]. rewrite H. reflexivity.
Qed.

Lemma periods_skip (df1 df2 : list Transaction) (t : Transaction) :
  redemption_date t = None ->
  before_july_23 (df1 ++ t :: df2) = before_july_23 (df1 ++ df2) /\
  after_july_23 (df1 ++ t :: df2) = after_july_23 (df1 ++ df2).
Proof.
  intros H. unfold before_july_23, after_july_23.
  now rewrite (redeemed_skip df1 df2 t H).
Qed.

Lemma periods_have_date (df : list Transaction) (t : Transaction) :
  In t (before_july_23 df) \/ In t (after_july_23 df) ->
  redemption_date t <> None.
Proof.
  unfold before_july_23, after_july_23.
  intros [H | H]; apply filter_In in H; destruct H as [H _];
    destruct (redeemed_has_date df t H) as [d Hd]; congruence.
Qed.

(** C10.  A row whose redemption date cell (cell 8) holds text that
    [parse_date] cannot read gets no redemption date.  If the row has a
    transaction number, a purchase date and readable plain numbers, its
    record is built all the same, with the redemption value and the
    gains read from their cells.  Such a record is in neither period
    frame, and the period frames, the summary and the fund-wise reports
    are the same as if the record were not in the frame at all. *)
Theorem unparseable_redemption_date
  (col_sum : list pyfloat -> pyfloat) (fadd : pyfloat -> pyfloat -> pyfloat)
  (cf fo : option str) (row : list cell) (s : str) :
  nth_error row 8 = Some (Some s) ->
  strip s <> [] ->
  fst (parse_date (strip s)) = None ->
  value (redemption_date_field row) = Ok None /\
  (forall d u pn rn,
      has_transaction_number row = true ->
      purchase_date_of row = Some d ->
      value (units_field row) = Ok u ->
      value (nav_field row 4) = Ok pn ->
      value (nav_field row 10) = Ok rn ->
      exists t, value (build cf fo row) = Ok (Some t) /\ redemption_date t = None) /\
  (forall t,
      value (build cf fo row) = Ok (Some t) ->
      redemption_date t = None /\
      redemption_value t = currency_field row 9 /\
      stcg t = currency_field row 11 /\
      ltcg t = currency_field row 12 /\
      forall df1 df2,
        ~ In t (before_july_23 (df1 ++ t :: df2)) /\
        ~ In t (after_july_23 (df1 ++ t :: df2)) /\
        before_july_23 (df1 ++ t :: df2) = before_july_23 (df1 ++ df2) /\
        after_july_23 (df1 ++ t :: df2) = after_july_23 (df1 ++ df2) /\
        generate_summary_report col_sum fadd
          (before_july_23 (df1 ++ t :: df2)) (after_july_23 (df1 ++ t :: df2))
        = generate_summary_report col_sum fadd
            (before_july_23 (df1 ++ df2)) (after_july_23 (df1 ++ df2)) /\
        generate_fund_wise_report col_sum fadd (before_july_23 (df1 ++ t :: df2))
        = generate_fund_wise_report col_sum fadd (before_july_23 (df1 ++ df2)) /\
        generate_fund_wise_report col_sum fadd (after_july_23 (df1 ++ t :: df2))
        = generate_fund_wise_report col_sum fadd (after_july_23 (df1 ++ df2))).
Proof.
  intros H8 Hs Hbad.
  assert (Hrd : value (redemption_date_field row) = Ok None).
  { rewrite redemption_date_field_value.
    destruct (present_some row 8 s H8) as [-> ->].
    rewrite nonblank_some. apply str_eqb_neq in Hs. rewrite Hs.
    cbn [negb andb to_str]. now rewrite Hbad. }
  split; [exact Hrd|]. split.
  - intros d u pn rn Hn Hd Hu Hpn Hrn.
    destruct (build_emits cf fo row d u pn rn Hn Hd Hu Hpn Hrn)
      as (n & rd & Hrd' & Hb).
    eexists. split; [exact Hb|]. simpl. congruence.
  - intros t Hb. apply build_record in Hb.
    destruct Hb as (s0 & n & u & d & pn & rd & rn & _ & _ & _ & _ & _ & _ & Hrd' & _ & ->).
    assert (Hnone : rd = None) by congruence. subst rd.
    split; [reflexivity|]. split; [reflexivity|]. split; [reflexivity|].
    split; [reflexivity|]. intros df1 df2.
    set (t := record_of cf fo row n u d pn None rn).
    assert (Ht : redemption_date t = None) by reflexivity.
    destruct (periods_skip df1 df2 t Ht) as [Hb Ha].
    split; [intros Hin; now apply (periods_have_date (df1 ++ t :: df2) t (or_introl Hin))|].
    split; [intros Hin; now apply (periods_have_date (df1 ++ t :: df2) t (or_intror Hin))|].
    rewrite Hb, Ha. repeat split.
Qed.

Lemma unparseable_redemption_date_witness :
  let row := [txt "5"; txt "10"; txt "Aug 09, 2023"; txt "1,000.00"; txt "100";
              blank; blank; blank; txt "soon"; txt "1,200.00"; txt "120";
              txt "200.00"; txt "-"] in
  exists t,
    value (build None None row) = Ok (Some t) /\
    redemption_date t = None /\
    redemption_value t = Finite (Qred 1200) /\
    stcg t = Finite (Qred 200) /\
    ~ In t (before_july_23 [t]) /\ ~ In t (after_july_23 [t]).
Proof.
  set (row := [txt "5"; txt "10"; txt "Aug 09, 2023"; txt "1,000.00"; txt "100";
               blank; blank; blank; txt "soon"; txt "1,200.00"; txt "120";
               txt "200.00"; txt "-"]).
  destruct (unparseable_redemption_date (fun _ => fzero) (fun a _ => a)
              None None row (lit "soon"))
    as (_ & _ & H); try (vm_compute; congruence).
  destruct (value (build None None row)) as [[t|]|e] eqn:Hb;
    try (vm_compute in Hb; discriminate).
  exists t. destruct (H t eq_refl) as (Hrd & Hrv & Hst & _ & Hdf).
  split; [exact Hb|]. split; [exact Hrd|].
  split; [rewrite Hrv; vm_compute; reflexivity|].
  split; [rewrite Hst; vm_compute; reflexivity|].
  destruct (Hdf [] []) as (Hnb & Hna & _). split; assumption.
Defined.

(** ** Further properties of the scan *)

Lemma split_from_skip (sep x cur post : str) :
  split_from sep (length x) cur (x ++ post) = split_from sep 0 cur post.
Proof.
  induction x as [|c x IH]; [reflexivity | exact IH].
Qed.

Lemma split_from_no_sep (sep s cur : str) :
  contains sep s = false -> split_from sep 0 cur s = [rev cur ++ s].
Proof.
  revert cur. induction s as [|c r IH]; intros cur H.
  - simpl. now rewrite app_nil_r.
  - cbn [contains] in H. apply orb_false_iff in H. destruct H as [Hsw Hr].
    cbn [split_from]. rewrite Hsw, (IH (c :: cur) Hr). simpl.
    now rewrite <- app_assoc.
Qed.

(** A split cuts at the leftmost separator and goes on with what follows
    it. *)
Lemma split_from_first (sep s cur : str) :
  sep <> [] -> contains sep s = true ->
  exists pre post,
    s = pre ++ sep ++ post /\
    (forall pre' post', s = pre' ++ sep ++ post' -> (length pre <= length pre')%nat) /\
    split_from sep 0 cur s = (rev cur ++ pre) :: split_from sep 0 [] post.
Proof.
  intros Hsep. revert cur. induction s as [|c r IH]; intros cur H.
  - simpl in H. rewrite orb_false_r in H. destruct sep; [contradiction|discriminate].
  - cbn [split_from]. cbn [contains] in H.
    destruct (starts_with sep (c :: r)) eqn:Hsw.
    + destruct sep as [|a sep']; [contradiction|].
      pose proof (starts_with_split _ _ Hsw) as Hs.
      exists [], (skipn (length (a :: sep')) (c :: r)).
      split; [exact Hs|]. split; [intros; simpl; lia|].
      rewrite app_nil_r. f_equal.
      simpl in Hs. injection Hs as _ Hr.
      cbn [length]. rewrite Nat.sub_succ, Nat.sub_0_r.
      rewrite Hr at 1. cbn [skipn]. apply split_from_skip.
    + simpl in H. destruct (IH (c :: cur) H) as (pre & post & Hs & Hmin & Hsp).
      exists (c :: pre), post. split; [simpl; now rewrite Hs|]. split.
      * intros pre' post' Heq. destruct pre' as [|c' pre'].
        -- simpl in Heq. rewrite Heq, starts_with_app in Hsw. discriminate.
        -- simpl in Heq. injection Heq as _ Heq. simpl.
           specialize (Hmin _ _ Heq). lia.
      * rewrite Hsp. simpl. now rewrite <- app_assoc.
Qed.

(** A row that is not taken as a folio line leaves the current folio
    alone, and the record it may add carries that folio. *)
Lemma step_keeps_folio (st : ParseContext) (row : list cell) :
  is_fund_header row || negb (is_folio_header row) = true ->
  current_folio (step st row) = current_folio st /\
  exists new,
    transactions (step st row) = transactions st ++ new /\
    Forall (fun t => folio_number t = current_folio st) new.
Proof.
  intros H. destruct (is_fund_header row) eqn:Hf.
  - unfold step. rewrite Hf. simpl. split; [reflexivity|].
    exists []. rewrite app_nil_r. auto.
  - simpl in H. apply negb_true_iff in H.
    destruct (step_data_row st row Hf H) as (Ht & _ & Hc).
    split; [exact Hc|].
    destruct (value (build (current_fund st) (current_folio st) row))
      as [[t|]|e] eqn:Hb.
    + exists [t]. split; [exact Ht|]. constructor; [|constructor].
      apply build_record in Hb.
      destruct Hb as (s0 & n & u & d & pn & rd & rn & _ & _ & _ & _ & _ & _ & _ & _ & ->).
      reflexivity.
    + exists []. rewrite app_nil_r. auto.
    + exists []. rewrite app_nil_r. auto.
Qed.

Lemma scan_keeps_folio (rows : list (list cell)) (st : ParseContext) :
  forallb (fun r => is_fund_header r || negb (is_folio_header r)) rows = true ->
  current_folio (scan st rows) = current_folio st /\
  exists new,
    transactions (scan st rows) = transactions st ++ new /\
    Forall (fun t => folio_number t = current_folio st) new.
Proof.
  revert st. induction rows as [|row rest IH]; intros st H.
  - simpl. split; [reflexivity|]. exists []. rewrite app_nil_r. auto.
  - simpl in H. apply andb_prop in H. destruct H as [Hrow Hrest].
    destruct (step_keeps_folio st row Hrow) as (Hc & new1 & Ht1 & Hf1).
    destruct (IH (step st row) Hrest) as (Hc2 & new2 & Ht2 & Hf2).
    rewrite scan_cons. split; [congruence|].
    exists (new1 ++ new2). split.
    + rewrite Ht2, Ht1. now rewrite app_assoc.
    + apply Forall_app. split; [exact Hf1|].
      rewrite Hc in Hf2. exact Hf2.
Qed.

(** X1.  A row that holds ["Folio No:"] and is no fund name line is a
    folio line: the current folio becomes the trimmed text between the
    leftmost ["Folio No:"] and the next one (all the text after it when
    there is none), no record is built from the row even when it starts
    with a transaction number, and the current fund stays.  Every record
    added by the rows that follow, up to the next folio line, carries that
    folio: a fund name line in between does not reset it. *)
Theorem folio_header_sets_current_folio (st : ParseContext) (row : list cell) :
  is_fund_header row = false -> is_folio_header row = true ->
  (exists pre post,
      row_str row = pre ++ folio_marker ++ post /\
      (forall pre' post',
          row_str row = pre' ++ folio_marker ++ post' ->
          (length pre <= length pre')%nat) /\
      current_folio (step st row)
        = Some (strip (nth 0 (split folio_marker post) [])) /\
      (contains folio_marker post = false ->
       current_folio (step st row) = Some (strip post))) /\
  transactions (step st row) = transactions st /\
  current_fund (step st row) = current_fund st /\
  printed (step st row) = printed st /\
  (forall rows,
      forallb (fun r => is_fund_header r || negb (is_folio_header r)) rows = true ->
      current_folio (scan st (row :: rows)) = current_folio (step st row) /\
      exists new,
        transactions (scan st (row :: rows)) = transactions st ++ new /\
        Forall (fun t => folio_number t = current_folio (step st row)) new).
Proof.
  intros Hf Ho.
  assert (Hstep : step st row =
                  mkContext (transactions st) (current_fund st)
                    (Some (strip (nth 1 (split folio_marker (row_str row)) [])))
                    (printed st)).
  { unfold step. rewrite Hf, Ho. reflexivity. }
  split; [|split; [|split; [|split]]]; try (rewrite Hstep; reflexivity).
  - assert (Hne : folio_marker <> []) by discriminate.
    destruct (split_from_first folio_marker (row_str row) [] Hne Ho)
      as (pre & post & Hs & Hmin & Hsp).
    exists pre, post. split; [exact Hs|]. split; [exact Hmin|].
    assert (Hfolio : current_folio (step st row)
                     = Some (strip (nth 0 (split folio_marker post) []))).
    { rewrite Hstep. unfold split at 1. rewrite Hsp. reflexivity. }
    split; [exact Hfolio|].
    intros Hnone. rewrite Hfolio. unfold split.
    now rewrite (split_from_no_sep _ _ [] Hnone).
  - intros rows Hrows. rewrite scan_cons.
    destruct (scan_keeps_folio rows (step st row) Hrows) as (Hc & new & Ht & Hfo).
    split; [exact Hc|]. exists new. split; [|exact Hfo].
    rewrite Ht, Hstep. reflexivity.
Qed.

Lemma folio_header_sets_current_folio_witness :
  let folio := [txt "7"; txt "Folio No: 999 / 1"; blank; txt "Aug 09, 2023"] in
  let fund := [txt "Fund B [ISIN:YY9] (Growth)"] in
  let data := [txt "1"; txt "10"; txt "Aug 09, 2023"] in
  transactions (step initial folio) = [] /\
  current_folio (step initial folio) = Some (lit "999 / 1 Aug 09, 2023") /\
  map folio_number (transactions (scan initial [folio; fund; data]))
    = [Some (lit "999 / 1 Aug 09, 2023")].
Proof.
  set (folio := [txt "7"; txt "Folio No: 999 / 1"; blank; txt "Aug 09, 2023"]).
  assert (Hf : is_fund_header folio = false) by (vm_compute; reflexivity).
  assert (Ho : is_folio_header folio = true) by (vm_compute; reflexivity).
  destruct (folio_header_sets_current_folio initial folio Hf Ho)
    as (_ & Ht & _ & _ & _).
  split; [exact Ht|]. split; vm_compute; reflexivity.
Defined.

(** One iteration adds at most one record, and none on a row that is not
    admissible. *)
Lemma step_adds (st : ParseContext) (row : list cell) :
  exists new,
    transactions (step st row) = transactions st ++ new /\
    (length new <= (if admissible row then 1 else 0))%nat.
Proof.
  destruct (step_transactions st row) as [Ht | (t & Hb & Hf & Ht)].
  - exists []. rewrite app_nil_r. split; [exact Ht|]. simpl. lia.
  - exists [t]. split; [exact Ht|].
    assert (Ho : is_folio_header row = false).
    { destruct (is_folio_header row) eqn:Ho; [|reflexivity].
      exfalso. unfold step in Ht. rewrite Hf, Ho in Ht. simpl in Ht.
      apply (f_equal (@length _)) in Ht. rewrite length_app in Ht.
      simpl in Ht. lia. }
    apply build_record in Hb.
    destruct Hb as (s0 & n & u & d & pn & rd & rn & H0 & Hd & _ & _ & Hp & _).
    rewrite purchase_date_field_value in Hp.
    unfold admissible, has_transaction_number. rewrite Hf, Ho, H0, Hd.
    destruct (nth_error row 2); [|discriminate].
    injection Hp as ->. simpl. lia.
Qed.

Lemma scan_adds (rows : list (list cell)) (st : ParseContext) :
  exists new,
    transactions (scan st rows) = transactions st ++ new /\
    (length new <= length (filter admissible rows))%nat.
Proof.
  revert st. induction rows as [|row rest IH]; intros st.
  - exists []. rewrite app_nil_r. split; [reflexivity | simpl; lia].
  - destruct (step_adds st row) as (new1 & Ht1 & Hl1).
    destruct (IH (step st row)) as (new2 & Ht2 & Hl2).
    exists (new1 ++ new2). rewrite scan_cons. split.
    + rewrite Ht2, Ht1. now rewrite app_assoc.
    + rewrite length_app. cbn [filter].
      destruct (admissible row); simpl; simpl in Hl1; lia.
Qed.

(** X2.  The scan only ever appends: the records collected from the first
    rows of a sheet stay, in order, at the front of what the whole sheet
    gives, and the rows that follow add at most one record for each
    admissible row among them (no header line, a transaction number, a
    purchase date).  A sheet without an admissible row, the empty sheet
    among them, gives no frame at all. *)
Theorem scan_appends (df rows : list (list cell)) :
  (exists new,
      transactions (scan initial (df ++ rows))
        = transactions (scan initial df) ++ new /\
      (length new <= length (filter admissible rows))%nat) /\
  (length (transactions (scan initial df)) <= length (filter admissible df))%nat /\
  (filter admissible df = [] -> parse_excel_data df = None).
Proof.
  split; [|split].
  - rewrite scan_app. apply scan_adds.
  - destruct (scan_adds df initial) as (new & Ht & Hl).
    rewrite Ht. simpl. exact Hl.
  - intros Hnone. destruct (scan_adds df initial) as (new & Ht & Hl).
    rewrite Hnone in Hl. simpl in Hl.
    unfold parse_excel_data. rewrite Ht. simpl.
    destruct new; [reflexivity | simpl in Hl; lia].
Qed.

Lemma scan_appends_witness :
  let notes := [[txt "Statement of account"]; [blank; blank];
                [txt "12"; txt "pages"; txt "in all"]] in
  filter admissible notes = [] /\ parse_excel_data notes = None.
Proof.
  set (notes := [[txt "Statement of account"]; [blank; blank];
                 [txt "12"; txt "pages"; txt "in all"]]).
  assert (H : filter admissible notes = []) by (vm_compute; reflexivity).
  split; [exact H|].
  exact (proj2 (proj2 (scan_appends notes [])) H).
Defined.

(** X3.  On a row that is no header line, a record is added exactly when
    the first cell is a transaction number, cell 2 gives a purchase date,
    and [float] reads the units cell and the two NAV cells (or they are
    blank); the record then carries the current fund and folio. *)
Theorem data_row_emits_iff (st : ParseContext) (row : list cell) :
  is_fund_header row = false -> is_folio_header row = false ->
  (exists t, transactions (step st row) = transactions st ++ [t]) <->
  has_transaction_number row = true /\
  (exists d, purchase_date_of row = Some d) /\
  (exists u, value (units_field row) = Ok u) /\
  (exists pn, value (nav_field row 4) = Ok pn) /\
  (exists rn, value (nav_field row 10) = Ok rn).
Proof.
  intros Hf Ho. destruct (step_data_row st row Hf Ho) as (Ht & _ & _).
  split.
  - intros [t Hadd].
    destruct (value (build (current_fund st) (current_folio st) row))
      as [[t'|]|e] eqn:Hb;
      try (rewrite Ht in Hadd; apply (f_equal (@length _)) in Hadd;
           rewrite length_app in Hadd; simpl in Hadd; lia).
    apply build_record in Hb.
    destruct Hb as (s0 & n & u & d & pn & rd & rn & H0 & Hd & _ & Hu & Hp & Hpn & _ & Hrn & _).
    rewrite purchase_date_field_value in Hp.
    destruct (nth_error row 2) eqn:H2; [|discriminate]. injection Hp as Hp.
    unfold has_transaction_number. rewrite H0.
    repeat split; eauto.
  - intros (Hn & [d Hd] & [u Hu] & [pn Hpn] & [rn Hrn]).
    destruct (build_emits (current_fund st) (current_folio st) row d u pn rn
                Hn Hd Hu Hpn Hrn) as (n & rd & _ & Hb).
    rewrite Hb in Ht. eauto.
Qed.

Lemma data_row_emits_iff_witness :
  let row := [txt "3"; blank; txt "01-02-2023"] in
  exists t, transactions (step initial row) = transactions initial ++ [t].
Proof.
  set (row := [txt "3"; blank; txt "01-02-2023"]).
  apply (proj2 (data_row_emits_iff initial row eq_refl eq_refl)).
  split; [vm_compute; reflexivity|].
  split; [exists (mkdate 2023 2 1); vm_compute; reflexivity|].
  split; [exists fzero; vm_compute; reflexivity|].
  split; exists fzero; vm_compute; reflexivity.
Defined.

(** ** Further properties of the dates *)

Lemma make_date_calendar (f : fields) (d : datetime) :
  make_date f = Some d -> calendar_date d.
Proof.
  unfold make_date, calendar_date.
  destruct (_ && _) eqn:H; [|discriminate].
  intros Hd. injection Hd as <-. simpl. lia.
Qed.

Lemma strptime_calendar (s fmt : str) (d : datetime) :
  strptime s fmt = Some d -> calendar_date d.
Proof.
  unfold strptime.
  destruct (match_all (compile false fmt) (no_fields, s)) as [|[f [|c r]] l];
    try discriminate.
  apply make_date_calendar.
Qed.

Lemma try_formats_calendar (s : str) (fmts : list str) (d : datetime) :
  try_formats s fmts = Some d -> calendar_date d.
Proof.
  induction fmts as [|fmt rest IH]; simpl; [discriminate|].
  destruct (strptime s fmt) as [d'|] eqn:Hs; [|exact IH].
  intros H. injection H as <-. now apply (strptime_calendar s fmt).
Qed.

Lemma parse_date_result (s : str) (d : option datetime) (out : list str) :
  parse_date s = (d, out) ->
  (length out <= 1)%nat /\
  forall x, d = Some x -> out = [] /\ calendar_date x.
Proof.
  unfold parse_date. destruct (_ || _).
  - intros H. injection H as <- <-. split; [simpl; lia | discriminate].
  - destruct (try_formats _ formats) as [x|] eqn:Ht; intros H; injection H as <- <-.
    + split; [simpl; lia|]. intros y Hy. injection Hy as <-.
      split; [reflexivity | now apply try_formats_calendar in Ht].
    + split; [simpl; lia | discriminate].
Qed.

Lemma parse_date_calendar (s : str) (d : datetime) :
  fst (parse_date s) = Some d -> calendar_date d.
Proof.
  destruct (parse_date s) as [x out] eqn:H. simpl. intros ->.
  now apply (proj2 (parse_date_result s (Some d) out H) d).
Qed.

(** X4.  [parse_date] prints at most one line and none when it returns a
    date, and a date it returns is a date of the calendar: the year is
    between 1 and 9999, the month between 1 and 12 and the day exists in
    that month of that year.  So every purchase date and redemption date
    stored in a record the scan collects is a date of the calendar. *)
Theorem stored_dates_are_calendar_dates :
  (forall s d out,
      parse_date s = (d, out) ->
      (length out <= 1)%nat /\
      forall x, d = Some x -> out = [] /\ calendar_date x) /\
  (forall df t,
      In t (transactions (scan initial df)) ->
      (forall d, purchase_date t = Some d -> calendar_date d) /\
      (forall d, redemption_date t = Some d -> calendar_date d)).
Proof.
  split; [exact parse_date_result|].
  intros df t Hin.
  assert (HF : Forall (fun t =>
                 (forall d, purchase_date t = Some d -> calendar_date d) /\
                 (forall d, redemption_date t = Some d -> calendar_date d))
                      (transactions (scan initial df))).
  { apply scan_records; [|constructor].
    intros cf fo row r _ Hb. apply build_record in Hb.
    destruct Hb as (s0 & n & u & d & pn & rd & rn & _ & _ & _ & _ & Hp & _ & Hrd & _ & ->).
    simpl. split.
    - intros x Hx. injection Hx as <-.
      rewrite purchase_date_field_value in Hp.
      destruct (nth_error row 2) as [[s|]|] eqn:H2; try discriminate;
        unfold purchase_date_of in Hp; rewrite H2 in Hp; try discriminate.
      injection Hp as Hp. now apply parse_date_calendar in Hp.
    - intros x Hx. subst rd. rewrite redemption_date_field_value in Hrd.
      destruct (present row 8 && nonblank (at_ row 8)); [|discriminate].
      injection Hrd as Hrd. now apply parse_date_calendar in Hrd. }
  rewrite Forall_forall in HF. now apply HF.
Qed.

Lemma stored_dates_are_calendar_dates_witness :
  parse_date (lit "29/02/2023") = (None, [warning (lit "29/02/2023")]) /\
  calendar_date (mkdate 2024 2 29).
Proof.
  split; [vm_compute; reflexivity|].
  apply (proj1 stored_dates_are_calendar_dates (lit "Feb 29, 2024")
               (Some (mkdate 2024 2 29)) []);
    [vm_compute; reflexivity | reflexivity].
Defined.

(** ** Further properties of the split and the reports *)

Lemma scan_purchase_dates (df : list (list cell)) :
  Forall (fun t => has_date (purchase_date t) = true)
         (transactions (scan initial df)).
Proof.
  apply scan_records; [|constructor].
  intros cf fo row r _ Hb. apply build_record in Hb.
  destruct Hb as (s0 & n & u & d & pn & rd & rn & _ & _ & _ & _ & _ & _ & _ & _ & ->).
  reflexivity.
Qed.

Lemma filter_all {A} (p : A -> bool) (l : list A) :
  Forall (fun x => p x = true) l -> filter p l = l.
Proof.
  induction 1 as [|x l Hx _ IH]; [reflexivity|].
  simpl. now rewrite Hx, IH.
Qed.

Lemma filter_none {A} (p : A -> bool) (l : list A) :
  filter p l = [] <-> forall x, In x l -> p x = false.
Proof.
  induction l as [|x l IH]; simpl.
  - split; [intros _ y [] | reflexivity].
  - destruct (p x) eqn:Hx; split.
    + discriminate.
    + intros H. specialize (H x (or_introl eq_refl)). congruence.
    + intros H y [<- | Hy]; [exact Hx | now apply IH].
    + intros H. apply IH. intros y Hy. apply H. now right.
Qed.

(** X5.  On the frame the parser returns, the filter on purchase dates
    removes nothing, so the realized records are the parsed records with
    a redemption date.  [analyze_transactions] run on what the parser
    returned fails exactly when no collected record has a redemption
    date (which includes the sheets that give no record at all). *)
Theorem analyze_after_parse (df : list (list cell)) :
  (forall ts,
      parse_excel_data df = Some ts ->
      valid_transactions ts = ts /\
      redeemed_transactions ts = filter (fun t => has_date (redemption_date t)) ts) /\
  (analyze_transactions (parse_excel_data df) = None <->
   forall t, In t (transactions (scan initial df)) -> redemption_date t = None).
Proof.
  assert (Hvalid : valid_transactions (transactions (scan initial df))
                   = transactions (scan initial df)).
  { unfold valid_transactions. apply filter_all. apply scan_purchase_dates. }
  split.
  - intros ts Hp. unfold parse_excel_data in Hp.
    destruct (transactions (scan initial df)) as [|t l] eqn:Ht; [discriminate|].
    injection Hp as <-. split; [exact Hvalid|].
    unfold redeemed_transactions. now rewrite Hvalid.
  - unfold parse_excel_data.
    destruct (transactions (scan initial df)) as [|t l] eqn:Ht.
    + simpl. split; [intros _ x [] | reflexivity].
    + unfold analyze_transactions. unfold redeemed_transactions.
      rewrite Hvalid. cbn [length Nat.eqb].
      destruct (filter (fun t0 => has_date (redemption_date t0)) (t :: l))
        as [|r rs] eqn:Hr.
      * simpl. split; [|reflexivity]. intros _ x Hx.
        pose proof (proj1 (filter_none _ _) Hr x Hx) as H. cbv beta in H.
        destruct (redemption_date x); [discriminate H | reflexivity].
      * cbn [length Nat.eqb]. split; [discriminate|]. intros Hall.
        assert (Hin : In r (filter (fun t0 => has_date (redemption_date t0)) (t :: l)))
          by (rewrite Hr; now left).
        apply filter_In in Hin. destruct Hin as [Hin Hd].
        rewrite (Hall r Hin) in Hd. discriminate.
Qed.

Lemma analyze_after_parse_witness :
  let held := [[txt "1"; txt "10"; txt "Aug 09, 2023"; txt "1,000.00"; txt "100"]] in
  parse_excel_data held <> None /\
  analyze_transactions (parse_excel_data held) = None.
Proof.
  set (held := [[txt "1"; txt "10"; txt "Aug 09, 2023"; txt "1,000.00"; txt "100"]]).
  split; [vm_compute; discriminate|].
  apply (proj2 (proj2 (analyze_after_parse held))).
  intros t Hin. vm_compute in Hin. destruct Hin as [<- | []]. reflexivity.
Defined.

Lemma periods_cover (df : list Transaction) :
  (length (before_july_23 df) + length (after_july_23 df)
   = length (redeemed_transactions df))%nat.
Proof.
  rewrite <- length_app. apply Permutation_length.
  apply filter_split_perm. intros t Ht. now apply (col_ge_lt df).
Qed.

(** X6.  When [analyze_transactions] succeeds, the summary built from the
    two frames it stores counts, in its three rows, the records redeemed
    before the change of rules, those redeemed from that day on, and all
    the realized records of the frame, of which there is at least one;
    every column of the summary has three entries. *)
Theorem summary_counts
  (col_sum : list pyfloat -> pyfloat) (fadd : pyfloat -> pyfloat -> pyfloat)
  (df before after : list Transaction) :
  analyze_transactions (Some df) = Some (before, after) ->
  let summary := generate_summary_report col_sum fadd before after in
  transactions_count summary
    = [length before; length after; length (redeemed_transactions df)] /\
  (0 < length (redeemed_transactions df))%nat /\
  map (@length _) [total_purchase_value summary; total_redemption_value summary;
                   total_stcg summary; total_ltcg summary]
    = [3; 3; 3; 3]%nat /\
  length (period summary) = 3%nat.
Proof.
  unfold analyze_transactions.
  destruct (Nat.eqb (length (valid_transactions df)) 0); [discriminate|].
  destruct (Nat.eqb (length (redeemed_transactions df)) 0) eqn:Hr; [discriminate|].
  intros H. injection H as <- <-. cbn zeta.
  split; [|split; [|split; reflexivity]].
  - cbn [generate_summary_report transactions_count]. now rewrite periods_cover.
  - apply Nat.eqb_neq in Hr. lia.
Qed.

Lemma summary_counts_witness :
  exists df before after,
    parse_excel_data sample_sheet = Some df /\
    analyze_transactions (Some df) = Some (before, after) /\
    transactions_count
      (generate_summary_report (fun _ => fzero) (fun a _ => a) before after)
    = [1; 1; 2]%nat.
Proof.
  destruct (parse_excel_data sample_sheet) as [df|] eqn:Hdf;
    [|vm_compute in Hdf; discriminate].
  destruct (analyze_transactions (Some df)) as [[before after]|] eqn:Ha;
    [|vm_compute in Hdf; injection Hdf as <-; vm_compute in Ha; discriminate].
  exists df, before, after. split; [reflexivity|]. split; [exact Ha|].
  destruct (summary_counts (fun _ => fzero) (fun a _ => a) df before after Ha)
    as (Hc & _).
  rewrite Hc. vm_compute in Hdf. injection Hdf as <-.
  vm_compute in Ha. injection Ha as <- <-. reflexivity.
Defined.

(** *** The fund-wise report *)

Lemma code_inj (x y : ascii) : code x = code y -> x = y.
Proof.
  unfold code. intros H.
  rewrite <- (ascii_N_embedding x), <- (ascii_N_embedding y). now rewrite H.
Qed.

Lemma str_ltb_asym (a b : str) : str_ltb a b = true -> str_ltb b a = false.
Proof.
  revert b. induction a as [|x a IH]; intros [|y b]; simpl; try congruence.
  destruct (N.ltb_spec (code x) (code y)), (N.ltb_spec (code y) (code x)),
    (N.eqb_spec (code x) (code y)), (N.eqb_spec (code y) (code x));
    simpl; try lia; try congruence.
  apply IH.
Qed.

Lemma str_ltb_total (a b : str) :
  str_ltb a b = false -> str_ltb b a = false -> a = b.
Proof.
  revert b. induction a as [|x a IH]; intros [|y b]; simpl; try congruence.
  destruct (N.ltb_spec (code x) (code y)), (N.ltb_spec (code y) (code x)),
    (N.eqb_spec (code x) (code y)), (N.eqb_spec (code y) (code x));
    simpl; try lia; try congruence.
  intros H1 H2. f_equal; [now apply code_inj | now apply IH].
Qed.

Lemma insert_sorted_perm (k : str) (ks : list str) :
  Permutation (insert_sorted k ks) (k :: ks).
Proof.
  induction ks as [|x r IH]; simpl; [reflexivity|].
  destruct (str_ltb x k); [|reflexivity].
  rewrite IH. apply perm_swap.
Qed.

Lemma sort_perm (l : list str) :
  Permutation (fold_right insert_sorted [] l) l.
Proof.
  induction l as [|a l IH]; simpl; [reflexivity|].
  rewrite insert_sorted_perm. now constructor.
Qed.

Lemma insert_sorted_sorted (k : str) (ks : list str) :
  ~ In k ks ->
  Sorted (fun a b => str_ltb a b = true) ks ->
  Sorted (fun a b => str_ltb a b = true) (insert_sorted k ks).
Proof.
  induction ks as [|x r IH]; intros Hk Hs; simpl.
  - repeat constructor.
  - inversion Hs as [|? ? Hr Hhd]; subst.
    destruct (str_ltb x k) eqn:Hxk.
    + constructor.
      * apply IH; [intros H; apply Hk; now right | exact Hr].
      * destruct r as [|y r']; simpl.
        -- constructor. exact Hxk.
        -- destruct (str_ltb y k); constructor; [|exact Hxk].
           now inversion Hhd.
    + constructor; [exact Hs|]. constructor.
      destruct (str_ltb k x) eqn:Hkx; [reflexivity|].
      exfalso. apply Hk. left. now apply str_ltb_total.
Qed.

Lemma sort_sorted (l : list str) :
  NoDup l -> Sorted (fun a b => str_ltb a b = true) (fold_right insert_sorted [] l).
Proof.
  induction 1 as [|a l Ha _ IH]; simpl; [constructor|].
  apply insert_sorted_sorted; [|exact IH].
  intros H. apply Ha. now apply (Permutation_in _ (sort_perm l)).
Qed.

(** The fund names of a frame, one for each record that has one. *)
Lemma group_keys_in (df : list Transaction) (k : str) :
  In k (group_keys df) <-> exists t, In t df /\ fund_name t = Some k.
Proof.
  unfold group_keys. split.
  - intros H. apply (Permutation_in _ (sort_perm _)) in H.
    apply nodup_In in H. apply in_flat_map in H.
    destruct H as (t & Ht & Hk). exists t. split; [exact Ht|].
    destruct (fund_name t); [|contradiction].
    destruct Hk as [-> | []]. reflexivity.
  - intros (t & Ht & Hk).
    apply (Permutation_in _ (Permutation_sym (sort_perm _))).
    apply nodup_In. apply in_flat_map. exists t. split; [exact Ht|].
    rewrite Hk. now left.
Qed.

Lemma group_keys_nodup (df : list Transaction) : NoDup (group_keys df).
Proof.
  unfold group_keys.
  apply (Permutation_NoDup (Permutation_sym (sort_perm _))). apply NoDup_nodup.
Qed.

Lemma group_keys_sorted (df : list Transaction) :
  Sorted (fun a b => str_ltb a b = true) (group_keys df).
Proof. unfold group_keys. apply sort_sorted, NoDup_nodup. Qed.

Lemma fund_wise_names
  (col_sum : list pyfloat -> pyfloat) (fadd : pyfloat -> pyfloat -> pyfloat)
  (df : list Transaction) :
  map Fund_Name (generate_fund_wise_report col_sum fadd df) = group_keys df /\
  map Number_of_Transactions (generate_fund_wise_report col_sum fadd df)
  = map (fun k => length (filter (in_group k) df)) (group_keys df).
Proof.
  unfold generate_fund_wise_report. destruct df as [|t df]; [split; reflexivity|].
  cbn [length Nat.eqb]. rewrite !map_map. cbn [Fund_Name Number_of_Transactions].
  split; [apply map_id | reflexivity].
Qed.

Lemma list_sum_zero {A} (l : list A) : list_sum (map (fun _ => 0%nat) l) = 0%nat.
Proof. induction l; simpl; auto. Qed.

Lemma list_sum_add {A} (f g : A -> nat) (l : list A) :
  list_sum (map (fun x => (f x + g x)%nat) l)
  = (list_sum (map f l) + list_sum (map g l))%nat.
Proof. induction l as [|x l IH]; simpl; [reflexivity | rewrite IH; lia]. Qed.

Lemma list_sum_cons (a : nat) (l : list nat) :
  list_sum (a :: l) = (a + list_sum l)%nat.
Proof. reflexivity. Qed.

(** A name is the key of one group only. *)
Lemma one_group (keys : list str) (n : str) :
  NoDup keys -> In n keys ->
  list_sum (map (fun k => if str_eqb n k then 1%nat else 0%nat) keys) = 1%nat.
Proof.
  induction 1 as [|k keys Hk _ IH]; intros Hin; [contradiction|].
  rewrite map_cons, list_sum_cons. destruct (str_eqb n k) eqn:He.
  - apply str_eqb_eq in He. subst k.
    rewrite (map_ext_in _ (fun _ => 0%nat)); [now rewrite list_sum_zero|].
    intros k' Hk'. destruct (str_eqb n k') eqn:He'; [|reflexivity].
    apply str_eqb_eq in He'. subst k'. contradiction.
  - apply str_eqb_neq in He. destruct Hin as [-> | Hin]; [contradiction|].
    now rewrite IH.
Qed.

Lemma group_sizes (keys : list str) (df : list Transaction) :
  NoDup keys ->
  (forall t n, In t df -> fund_name t = Some n -> In n keys) ->
  list_sum (map (fun k => length (filter (in_group k) df)) keys)
  = length (filter named df).
Proof.
  intros Hnd. induction df as [|t df IH]; intros Hcov.
  - simpl. apply list_sum_zero.
  - rewrite (map_ext _ (fun k => ((if in_group k t then 1 else 0)
                                   + length (filter (in_group k) df))%nat)).
    2:{ intros k. cbn [filter]. destruct (in_group k t); reflexivity. }
    rewrite list_sum_add, IH.
    2:{ intros t' n Ht'. apply Hcov. now right. }
    cbn [filter]. destruct (fund_name t) as [n|] eqn:Hn.
    + assert (Hnamed : named t = true) by (unfold named; now rewrite Hn).
      rewrite Hnamed.
      rewrite (map_ext (fun k => if in_group k t then 1%nat else 0%nat)
                       (fun k => if str_eqb n k then 1%nat else 0%nat)).
      2:{ intros k. unfold in_group. now rewrite Hn. }
      rewrite (one_group keys n Hnd); [reflexivity|].
      apply (Hcov t n); [now left | exact Hn].
    + assert (Hnamed : named t = false) by (unfold named; now rewrite Hn).
      rewrite Hnamed.
      rewrite (map_ext (fun k => if in_group k t then 1%nat else 0%nat)
                       (fun _ => 0%nat)).
      2:{ intros k. unfold in_group. now rewrite Hn. }
      now rewrite list_sum_zero.
Qed.

(** X7.  The fund-wise report has one row for each fund name that occurs
    in the period frame and no other row, and its rows come in strictly
    ascending order of the name.  A row counts the records of its fund, at
    least one, and the counts add up to the number of records that carry a
    fund name: a record without one (no fund name line came before its
    row) is in no row of the report.  An empty frame gives an empty
    report. *)
Theorem fund_wise_report_rows
  (col_sum : list pyfloat -> pyfloat) (fadd : pyfloat -> pyfloat -> pyfloat)
  (df : list Transaction) :
  let report := generate_fund_wise_report col_sum fadd df in
  Sorted (fun a b => str_ltb a b = true) (map Fund_Name report) /\
  NoDup (map Fund_Name report) /\
  (forall k, In k (map Fund_Name report) <->
             exists t, In t df /\ fund_name t = Some k) /\
  (forall r, In r report ->
             Number_of_Transactions r = length (filter (in_group (Fund_Name r)) df) /\
             (1 <= Number_of_Transactions r)%nat) /\
  list_sum (map Number_of_Transactions report) = length (filter named df) /\
  (df = [] -> report = []).
Proof.
  intros report. destruct (fund_wise_names col_sum fadd df) as [Hn Hc].
  fold report in Hn, Hc.
  split; [rewrite Hn; apply group_keys_sorted|].
  split; [rewrite Hn; apply group_keys_nodup|].
  split; [intros k; rewrite Hn; apply group_keys_in|].
  split; [|split].
  - intros r Hr.
    assert (Hrow : Number_of_Transactions r
                   = length (filter (in_group (Fund_Name r)) df) /\
                   In (Fund_Name r) (group_keys df)).
    { unfold report, generate_fund_wise_report in Hr.
      destruct (Nat.eqb (length df) 0); [contradiction|].
      apply in_map_iff in Hr. destruct Hr as (k & <- & Hk). simpl. auto. }
    destruct Hrow as [Hcount Hkey]. split; [exact Hcount|].
    apply group_keys_in in Hkey. destruct Hkey as (t & Ht & Hname).
    rewrite Hcount.
    assert (Hin : In t (filter (in_group (Fund_Name r)) df)).
    { apply filter_In. split; [exact Ht|]. unfold in_group. rewrite Hname.
      now apply str_eqb_eq. }
    destruct (filter (in_group (Fund_Name r)) df); [contradiction | simpl; lia].
  - rewrite Hc. apply group_sizes; [apply group_keys_nodup|].
    intros t n Ht Hname. apply group_keys_in. eauto.
  - intros ->. reflexivity.
Qed.

Lemma fund_wise_report_rows_witness :
  let df := transactions
              (scan initial
                 ([txt "9"; txt "1"; txt "Aug 09, 2023"] :: sample_sheet)) in
  length df = 3%nat /\
  map Fund_Name (generate_fund_wise_report (fun _ => fzero) (fun a _ => a) df)
    = [lit "Fund A"] /\
  list_sum (map Number_of_Transactions
              (generate_fund_wise_report (fun _ => fzero) (fun a _ => a) df))
    = 2%nat.
Proof.
  set (rows := [txt "9"; txt "1"; txt "Aug 09, 2023"] :: sample_sheet).
  split; [vm_compute; reflexivity|]. split; [vm_compute; reflexivity|].
  rewrite (proj1 (proj2 (proj2 (proj2 (proj2
            (fund_wise_report_rows (fun _ => fzero) (fun a _ => a)
               (transactions (scan initial rows)))))))).
  vm_compute. reflexivity.
Defined.

(** *** The export *)

(** *** The export *)




(** ** The formats do not compete *)

Ltac each_char c := destruct c as [[] [] [] [] [] [] [] []].

Lemma digit_not_separator (x : ascii) :
  is_digit x = true -> lit_eq "/" x = false /\ lit_eq "-" x = false.
Proof. each_char x; vm_compute; intros H; try discriminate H; auto. Qed.

Lemma separators_differ (x : ascii) :
  lit_eq "/" x = true -> lit_eq "-" x = true -> False.
Proof. each_char x; vm_compute; intros H1 H2; congruence. Qed.

Lemma month_initial_no_day (c : ascii) :
  month_initial c = true -> day_initial c = true -> False.
Proof. each_char c; vm_compute; intros H1 H2; congruence. Qed.

Lemma digit_day_initial (c : ascii) : is_digit c = true -> day_initial c = true.
Proof. unfold day_initial. now intros ->. Qed.

Lemma in_range_digit (lo hi : N) (c : ascii) :
  (48 <= lo)%N -> (hi <= 57)%N -> in_range lo hi c = true -> is_digit c = true.
Proof.
  unfold in_range, is_digit. intros Hlo Hhi H.
  apply andb_prop in H. destruct H as [H1 H2].
  apply N.leb_le in H1. apply N.leb_le in H2.
  apply andb_true_intro. split; apply N.leb_le; lia.
Qed.

Lemma flat_map_nonempty {A B} (f : A -> list B) (l : list A) :
  flat_map f l <> [] -> exists x, In x l /\ f x <> [].
Proof.
  induction l as [|a l IH]; simpl; [congruence|].
  intros H. destruct (f a) eqn:Hfa.
  - simpl in H. destruct (IH H) as (x & Hx & Hf). exists x. auto.
  - exists a. split; [now left | congruence].
Qed.

Lemma match_all_step (d : directive) (ds : list directive) (st : fields * str) :
  match_all (d :: ds) st <> [] ->
  exists mid, In mid (match_directive d st) /\ match_all ds mid <> [].
Proof. apply flat_map_nonempty. Qed.

Lemma two_in (p1 p2 : ascii -> bool) (s : str) (v : Z) (r : str) :
  In (v, r) (two p1 p2 s) ->
  exists a b, s = a :: b :: r /\ p1 a = true /\ p2 b = true.
Proof.
  unfold two. destruct s as [|a [|b r']]; try contradiction.
  destruct (p1 a && p2 b) eqn:H; [|contradiction].
  intros [Hin | []]. injection Hin as _ <-.
  apply andb_prop in H. exists a, b. tauto.
Qed.

Lemma one_in (p : ascii -> bool) (s : str) (v : Z) (r : str) :
  In (v, r) (one p s) -> exists a, s = a :: r /\ p a = true.
Proof.
  unfold one. destruct s as [|a r']; try contradiction.
  destruct (p a) eqn:H; [|contradiction].
  intros [Hin | []]. injection Hin as _ <-. exists a. auto.
Qed.

Lemma blank_one_in (s : str) (v : Z) (r : str) :
  In (v, r) (blank_one s) ->
  exists a b, s = a :: b :: r /\ day_initial a = true /\ is_digit b = true.
Proof.
  unfold blank_one. destruct s as [|a [|b r']]; try contradiction.
  destruct (Ascii.eqb a " " && in_range 49 57 b) eqn:H; [|contradiction].
  intros [Hin | []]. injection Hin as _ <-.
  apply andb_prop in H. destruct H as [Ha Hb]. exists a, b.
  split; [reflexivity|]. split.
  - unfold day_initial. rewrite Ha. apply orb_true_r.
  - apply (in_range_digit 49 57); [lia | lia | exact Hb].
Qed.

(** What [%d] matches: one digit, or two characters, a digit or a space
    and then a digit. *)
Lemma match_d_in (s : str) (v : Z) (r : str) :
  In (v, r) (match_d s) ->
  (exists a, s = a :: r /\ day_initial a = true) \/
  (exists a b, s = a :: b :: r /\ day_initial a = true /\ is_digit b = true).
Proof.
  unfold match_d. rewrite !in_app_iff.
  intros [H | [H | [H | [H | H]]]].
  - apply two_in in H. destruct H as (a & b & -> & Ha & Hb). right. exists a, b.
    split; [reflexivity|]. split.
    + apply digit_day_initial, (in_range_digit 51 51); [lia | lia | exact Ha].
    + apply (in_range_digit 48 49); [lia | lia | exact Hb].
  - apply two_in in H. destruct H as (a & b & -> & Ha & Hb). right. exists a, b.
    split; [reflexivity|]. split; [|exact Hb].
    apply digit_day_initial, (in_range_digit 49 50); [lia | lia | exact Ha].
  - apply two_in in H. destruct H as (a & b & -> & Ha & Hb). right. exists a, b.
    split; [reflexivity|]. split.
    + apply digit_day_initial, (in_range_digit 48 48); [lia | lia | exact Ha].
    + apply (in_range_digit 49 57); [lia | lia | exact Hb].
  - apply one_in in H. destruct H as (a & -> & Ha). left. exists a.
    split; [reflexivity|].
    apply digit_day_initial, (in_range_digit 49 57); [lia | lia | exact Ha].
  - apply blank_one_in in H. right. exact H.
Qed.

Lemma match_lit_nonempty (c : ascii) (ds : list directive) (f : fields) (s : str) :
  match_all (Dir_lit c :: ds) (f, s) <> [] ->
  exists x r, s = x :: r /\ lit_eq c x = true.
Proof.
  intros H. apply match_all_step in H. destruct H as (mid & Hin & _).
  simpl in Hin. destruct s as [|x r]; [contradiction|].
  fold (lit_eq c x) in Hin. destruct (lit_eq c x) eqn:Hx; [|contradiction].
  exists x, r. auto.
Qed.

Lemma day_then_literal (c : ascii) (ds : list directive) (f : fields) (s : str) :
  match_all (Dir_d :: Dir_lit c :: ds) (f, s) <> [] -> shape_day c s.
Proof.
  intros H. apply match_all_step in H. destruct H as (mid & Hin & Hrest).
  cbn [match_directive] in Hin. apply in_map_iff in Hin.
  destruct Hin as ([v r] & <- & Hd). cbn [fst snd] in Hrest.
  apply match_lit_nonempty in Hrest. destruct Hrest as (x & r' & -> & Hx).
  apply match_d_in in Hd. destruct Hd as [(a & -> & Ha) | (a & b & -> & Ha & Hb)].
  - left. exists a, x, r'. auto.
  - right. exists a, b, x, r'. auto.
Qed.

Lemma year_then_literal (c : ascii) (ds : list directive) (f : fields) (s : str) :
  match_all (Dir_Y :: Dir_lit c :: ds) (f, s) <> [] ->
  exists a b c' d x r,
    s = a :: b :: c' :: d :: x :: r /\
    is_digit a = true /\ is_digit b = true /\ is_digit c' = true /\
    is_digit d = true /\ lit_eq c x = true.
Proof.
  intros H. apply match_all_step in H. destruct H as (mid & Hin & Hrest).
  cbn [match_directive] in Hin. apply in_map_iff in Hin.
  destruct Hin as ([v r] & <- & HY). cbn [fst snd] in Hrest.
  apply match_lit_nonempty in Hrest. destruct Hrest as (x & r' & -> & Hx).
  unfold match_Y in HY. destruct s as [|a [|b [|c' [|d r0]]]]; try contradiction.
  destruct (is_digit a && is_digit b && is_digit c' && is_digit d) eqn:Hd;
    [|contradiction].
  destruct HY as [HY | []]. injection HY as _ ->.
  apply andb_prop in Hd. destruct Hd as [Hd Hd4].
  apply andb_prop in Hd. destruct Hd as [Hd Hd3].
  apply andb_prop in Hd. destruct Hd as [Hd1 Hd2].
  exists a, b, c', d, x, r'. repeat split; assumption.
Qed.

Lemma match_name_in (names : list (string * Z)) (s : str) (v : Z) (r : str) :
  In (v, r) (match_name names s) ->
  exists n, In (n, v) names /\ starts_with_nocase (lit n) s = true /\
            r = skipn (length (lit n)) s.
Proof.
  unfold match_name. intros H. apply in_flat_map in H.
  destruct H as ([n m] & Hn & Hin). cbn [fst snd] in Hin.
  destruct (starts_with_nocase (lit n) s) eqn:Hs; [|contradiction].
  destruct Hin as [Hin | []]. injection Hin as <- <-. exists n. auto.
Qed.

Lemma month_name_initial (names : list (string * Z)) (s : str) (v : Z) (r : str) :
  names = abbr_months \/ names = full_months ->
  In (v, r) (match_name names s) -> shape_name s.
Proof.
  intros Hnames H. apply match_name_in in H. destruct H as (n & Hn & Hs & _).
  destruct s as [|c r'].
  - exfalso. destruct Hnames as [-> | ->]; cbn [In abbr_months full_months] in Hn;
      repeat (destruct Hn as [Hn | Hn];
              [injection Hn as <- _; vm_compute in Hs; discriminate Hs|]);
      contradiction.
  - exists c, r'. split; [reflexivity|]. unfold month_initial.
    destruct Hnames as [-> | ->]; cbn [In abbr_months full_months] in Hn;
      repeat (destruct Hn as [Hn | Hn];
              [injection Hn as <- _; unfold lit in Hs;
               cbn [starts_with_nocase list_ascii_of_string] in Hs;
               apply andb_prop in Hs; destruct Hs as [Hs _];
               apply Ascii.eqb_eq in Hs; rewrite <- Hs; reflexivity|]);
      contradiction.
Qed.

Lemma strptime_nonempty (s fmt : str) (d : datetime) :
  strptime s fmt = Some d ->
  match_all (compile false fmt) (no_fields, s) <> [].
Proof.
  unfold strptime. destruct (match_all _ _); [discriminate | discriminate].
Qed.

Lemma accept_names (s fmt : str) (d : datetime) :
  fmt = lit "%b %d, %Y" \/ fmt = lit "%B %d, %Y" ->
  strptime s fmt = Some d -> shape_name s.
Proof.
  intros Hfmt H. apply strptime_nonempty in H.
  destruct Hfmt as [-> | ->].
  - change (compile false (lit "%b %d, %Y"))
      with [Dir_b; Dir_ws; Dir_d; Dir_lit ","; Dir_ws; Dir_Y] in H.
    apply match_all_step in H. destruct H as (mid & Hin & _).
    cbn [match_directive] in Hin. apply in_map_iff in Hin.
    destruct Hin as ([v r] & _ & Hn).
    apply (month_name_initial abbr_months s v r); auto.
  - change (compile false (lit "%B %d, %Y"))
      with [Dir_B; Dir_ws; Dir_d; Dir_lit ","; Dir_ws; Dir_Y] in H.
    apply match_all_step in H. destruct H as (mid & Hin & _).
    cbn [match_directive] in Hin. apply in_map_iff in Hin.
    destruct Hin as ([v r] & _ & Hn).
    apply (month_name_initial full_months s v r); auto.
Qed.

Lemma accept_abbr (s : str) (d : datetime) :
  strptime s (lit "%b %d, %Y") = Some d -> shape_name s.
Proof. apply accept_names. now left. Qed.

Lemma accept_full (s : str) (d : datetime) :
  strptime s (lit "%B %d, %Y") = Some d -> shape_name s.
Proof. apply accept_names. now right. Qed.

Lemma accept_slash (s : str) (d : datetime) :
  strptime s (lit "%d/%m/%Y") = Some d -> shape_day "/" s.
Proof.
  intros H. apply strptime_nonempty in H.
  change (compile false (lit "%d/%m/%Y"))
    with [Dir_d; Dir_lit "/"; Dir_m; Dir_lit "/"; Dir_Y] in H.
  now apply day_then_literal in H.
Qed.

Lemma accept_hyphen (s : str) (d : datetime) :
  strptime s (lit "%d-%m-%Y") = Some d -> shape_day "-" s.
Proof.
  intros H. apply strptime_nonempty in H.
  change (compile false (lit "%d-%m-%Y"))
    with [Dir_d; Dir_lit "-"; Dir_m; Dir_lit "-"; Dir_Y] in H.
  now apply day_then_literal in H.
Qed.

Lemma accept_iso (s : str) (d : datetime) :
  strptime s (lit "%Y-%m-%d") = Some d -> shape_iso s.
Proof.
  intros H. apply strptime_nonempty in H.
  change (compile false (lit "%Y-%m-%d"))
    with [Dir_Y; Dir_lit "-"; Dir_m; Dir_lit "-"; Dir_d] in H.
  now apply year_then_literal in H.
Qed.

Lemma name_or_day (c : ascii) (s : str) : shape_name s -> shape_day c s -> False.
Proof.
  intros (c0 & r & -> & Hm) [(a & x & r' & Hs & Ha & _) | (a & b & x & r' & Hs & Ha & _)];
    injection Hs as <- _; now apply (month_initial_no_day c0).
Qed.

Lemma name_or_iso (s : str) : shape_name s -> shape_iso s -> False.
Proof.
  intros (c0 & r & -> & Hm) (a & b & c & d & x & r' & Hs & Ha & _).
  injection Hs as <- _. apply (month_initial_no_day c0 Hm).
  now apply digit_day_initial.
Qed.

Lemma slash_or_hyphen (s : str) : shape_day "/" s -> shape_day "-" s -> False.
Proof.
  intros [(a & x & r & -> & _ & Hx) | (a & b & x & r & -> & _ & Hb & Hx)]
         [(a' & x' & r' & Hs & _ & Hx') | (a' & b' & x' & r' & Hs & _ & Hb' & Hx')];
    injection Hs as; subst.
  - now apply (separators_differ x').
  - destruct (digit_not_separator _ Hb'). congruence.
  - destruct (digit_not_separator _ Hb). congruence.
  - now apply (separators_differ x').
Qed.

Lemma iso_or_day (c : ascii) (s : str) :
  c = "/"%char \/ c = "-"%char -> shape_iso s -> shape_day c s -> False.
Proof.
  intros Hc (a & b & c' & d & x & r & -> & Ha & Hb & Hc' & _)
         [(a' & x' & r' & Hs & _ & Hx') | (a' & b' & x' & r' & Hs & _ & _ & Hx')];
    injection Hs as; subst.
  - destruct (digit_not_separator _ Hb). destruct Hc; subst; congruence.
  - destruct (digit_not_separator _ Hc'). destruct Hc; subst; congruence.
Qed.

Lemma starts_with_nocase_length (p s : str) :
  starts_with_nocase p s = true -> (length p <= length s)%nat.
Proof.
  revert s. induction p as [|a p IH]; intros s H; simpl; [lia|].
  destruct s as [|b s]; [discriminate|]. simpl in H.
  apply andb_prop in H. destruct H as [_ H]. apply IH in H. simpl. lia.
Qed.

Lemma match_ws_nonempty (s : str) :
  match_ws s <> [] -> exists c r, s = c :: r /\ is_space c = true.
Proof.
  destruct s as [|c r]; simpl; [congruence|].
  destruct (is_space c) eqn:Hc; [|congruence]. intros _. eauto.
Qed.

(** A text the abbreviated-month format accepts has a blank as its fourth
    character. *)
Lemma abbr_then_space (s : str) (d : datetime) :
  strptime s (lit "%b %d, %Y") = Some d ->
  exists c0 c1 c2 c3 r, s = c0 :: c1 :: c2 :: c3 :: r /\ is_space c3 = true.
Proof.
  intros H. apply strptime_nonempty in H.
  change (compile false (lit "%b %d, %Y"))
    with [Dir_b; Dir_ws; Dir_d; Dir_lit ","; Dir_ws; Dir_Y] in H.
  apply match_all_step in H. destruct H as (mid & Hin & Hrest).
  cbn [match_directive] in Hin. apply in_map_iff in Hin.
  destruct Hin as ([v r] & <- & Hn). cbn [fst snd] in Hrest.
  apply match_name_in in Hn. destruct Hn as (n & Hn & Hs & Hr).
  assert (Hlen : length (lit n) = 3%nat).
  { cbn [In abbr_months] in Hn.
    repeat (destruct Hn as [Hn | Hn]; [injection Hn as <- _; reflexivity|]).
    contradiction. }
  apply starts_with_nocase_length in Hs. rewrite Hlen in Hs, Hr.
  destruct s as [|c0 [|c1 [|c2 rest]]]; simpl in Hs; try lia.
  simpl in Hr. subst r.
  apply match_all_step in Hrest. destruct Hrest as (mid & Hin & _).
  cbn [match_directive] in Hin.
  assert (Hws : match_ws rest <> []) by (destruct (match_ws rest); [contradiction | discriminate]).
  apply match_ws_nonempty in Hws. destruct Hws as (c3 & r & -> & Hc3).
  exists c0, c1, c2, c3, r. auto.
Qed.

(** A blank is none of the fourth letters of the full month names. *)
Lemma space_vs_letters (c : ascii) :
  is_space c = true ->
  Ascii.eqb (to_lower "t") (to_lower c) = false /\
  Ascii.eqb (to_lower "r") (to_lower c) = false /\
  Ascii.eqb (to_lower "e") (to_lower c) = false /\
  Ascii.eqb (to_lower "u") (to_lower c) = false /\
  Ascii.eqb (to_lower "o") (to_lower c) = false /\
  Ascii.eqb (to_lower "c") (to_lower c) = false /\
  Ascii.eqb (to_lower "i") (to_lower c) = false /\
  Ascii.eqb (to_lower "y") (to_lower c) = false.
Proof.
  each_char c; vm_compute; intros H; try discriminate H; repeat split.
Qed.

(** Before a blank, a full month name is an abbreviated one. *)
Lemma names_before_space (c0 c1 c2 c3 : ascii) (r : str) :
  is_space c3 = true ->
  match_name full_months (c0 :: c1 :: c2 :: c3 :: r) = [] \/
  match_name full_months (c0 :: c1 :: c2 :: c3 :: r)
  = match_name abbr_months (c0 :: c1 :: c2 :: c3 :: r).
Proof.
  intros Hsp.
  destruct (space_vs_letters c3 Hsp) as (Ht & Hr & He & Hu & Ho & Hc & Hi & Hy).
  unfold match_name, lit.
  cbn [flat_map starts_with_nocase list_ascii_of_string fst snd abbr_months
       full_months length skipn].
  rewrite Ht, Hr, He, Hu, Ho, Hc, Hi, Hy.
  cbn [andb]. rewrite !andb_false_r. cbn [app].
  destruct (Ascii.eqb_spec (to_lower "m") (to_lower c0)) as [E0|_];
    [|left; reflexivity].
  destruct (Ascii.eqb_spec (to_lower "a") (to_lower c1)) as [E1|_];
    [|left; reflexivity].
  destruct (Ascii.eqb_spec (to_lower "y") (to_lower c2)) as [E2|_];
    [|left; reflexivity].
  right. rewrite <- E0, <- E1, <- E2. reflexivity.
Qed.

(** A text that both month-name formats accept gets the same date from
    both. *)
Lemma names_agree (s : str) (d1 d2 : datetime) :
  strptime s (lit "%b %d, %Y") = Some d1 ->
  strptime s (lit "%B %d, %Y") = Some d2 ->
  d1 = d2.
Proof.
  intros H1 H2.
  destruct (abbr_then_space s d1 H1) as (c0 & c1 & c2 & c3 & r & -> & Hsp).
  assert (Hsame : strptime (c0 :: c1 :: c2 :: c3 :: r) (lit "%B %d, %Y")
                  = strptime (c0 :: c1 :: c2 :: c3 :: r) (lit "%b %d, %Y") \/
                  strptime (c0 :: c1 :: c2 :: c3 :: r) (lit "%B %d, %Y") = None).
  { unfold strptime.
    change (compile false (lit "%b %d, %Y"))
      with [Dir_b; Dir_ws; Dir_d; Dir_lit ","; Dir_ws; Dir_Y].
    change (compile false (lit "%B %d, %Y"))
      with [Dir_B; Dir_ws; Dir_d; Dir_lit ","; Dir_ws; Dir_Y].
    cbn [match_all match_directive].
    destruct (names_before_space c0 c1 c2 c3 r Hsp) as [-> | ->];
      [right; reflexivity | left; reflexivity]. }
  destruct Hsame as [Hsame | Hnone]; congruence.
Qed.

Lemma try_formats_some (s : str) (fmts : list str) (d : datetime) :
  try_formats s fmts = Some d ->
  exists fmt, In fmt fmts /\ strptime s fmt = Some d.
Proof.
  induction fmts as [|f rest IH]; simpl; [discriminate|].
  destruct (strptime s f) as [d'|] eqn:Hs.
  - intros H. injection H as <-. exists f. auto.
  - intros H. destruct (IH H) as (fmt & Hin & Hd). exists fmt. auto.
Qed.

Lemma try_formats_accepts (s : str) (fmts : list str) (fmt : str) (d : datetime) :
  In fmt fmts -> strptime s fmt = Some d -> try_formats s fmts <> None.
Proof.
  induction fmts as [|f rest IH]; intros Hin Hd; [contradiction|].
  simpl. destruct (strptime s f) eqn:Hs; [discriminate|].
  destruct Hin as [-> | Hin]; [congruence | now apply IH].
Qed.

Ltac shapes_clash :=
  repeat match goal with
         | H : strptime _ (lit "%b %d, %Y") = Some _ |- _ => apply accept_abbr in H
         | H : strptime _ (lit "%B %d, %Y") = Some _ |- _ => apply accept_full in H
         | H : strptime _ (lit "%d/%m/%Y") = Some _ |- _ => apply accept_slash in H
         | H : strptime _ (lit "%Y-%m-%d") = Some _ |- _ => apply accept_iso in H
         | H : strptime _ (lit "%d-%m-%Y") = Some _ |- _ => apply accept_hyphen in H
         end;
  match goal with
  | H1 : shape_name ?s, H2 : shape_day ?c ?s |- _ => exact (name_or_day c s H1 H2)
  | H1 : shape_name ?s, H2 : shape_iso ?s |- _ => exact (name_or_iso s H1 H2)
  | H1 : shape_day "/" ?s, H2 : shape_day "-" ?s |- _ =>
      exact (slash_or_hyphen s H1 H2)
  | H1 : shape_iso ?s, H2 : shape_day ?c ?s |- _ =>
      apply (iso_or_day c s); [auto | exact H1 | exact H2]
  end.

Lemma formats_agree (s f1 f2 : str) (d1 d2 : datetime) :
  In f1 formats -> In f2 formats ->
  strptime s f1 = Some d1 -> strptime s f2 = Some d2 -> d1 = d2.
Proof.
  intros H1 H2 A1 A2. unfold formats in H1, H2. cbn [In] in H1, H2.
  repeat (destruct H1 as [H1 | H1]); try contradiction;
    repeat (destruct H2 as [H2 | H2]); try contradiction;
    subst f1 f2;
    try congruence;
    try (exact (names_agree s d1 d2 A1 A2));
    try (symmetry; exact (names_agree s d2 d1 A2 A1));
    exfalso; shapes_clash.
Qed.

(** X9.  The five formats do not compete: a text that two of them accept
    gets the same date from both (only the two month-name formats share
    texts, those with the month May), and the numeric formats accept
    disjoint sets of texts.  So the loop over the formats gives the same
    result in whatever order the five formats are listed. *)
Theorem format_order_is_immaterial :
  (forall s f1 f2 d1 d2,
      In f1 formats -> In f2 formats ->
      strptime s f1 = Some d1 -> strptime s f2 = Some d2 -> d1 = d2) /\
  (forall s fmts,
      Permutation fmts formats ->
      try_formats s fmts = try_formats s formats).
Proof.
  split; [exact formats_agree|].
  intros s fmts Hperm.
  destruct (try_formats s formats) as [d|] eqn:Hf.
  - destruct (try_formats_some s formats d Hf) as (fmt & Hin & Hd).
    assert (Hin' : In fmt fmts)
      by (apply (Permutation_in _ (Permutation_sym Hperm)); exact Hin).
    destruct (try_formats s fmts) as [d'|] eqn:Hf'.
    + destruct (try_formats_some s fmts d' Hf') as (fmt' & Hin2 & Hd').
      f_equal. apply (formats_agree s fmt' fmt); auto.
      now apply (Permutation_in _ Hperm).
    + exfalso. now apply (try_formats_accepts s fmts fmt d Hin' Hd).
  - destruct (try_formats s fmts) as [d'|] eqn:Hf'; [|reflexivity].
    exfalso. destruct (try_formats_some s fmts d' Hf') as (fmt' & Hin2 & Hd').
    apply (try_formats_accepts s formats fmt' d'); auto.
    now apply (Permutation_in _ Hperm).
Qed.

Lemma format_order_is_immaterial_witness :
  try_formats (lit "May 09, 2023") (rev formats) = Some (mkdate 2023 5 9) /\
  strptime (lit "May 09, 2023") (lit "%b %d, %Y")
  = strptime (lit "May 09, 2023") (lit "%B %d, %Y").
Proof.
  split.
  - rewrite (proj2 format_order_is_immaterial (lit "May 09, 2023") (rev formats));
      [vm_compute; reflexivity|].
    apply Permutation_sym, Permutation_rev.
  - vm_compute. reflexivity.
Defined.

(** ** A sheet without fund name lines *)

Lemma unnamed_report
  (col_sum : list pyfloat -> pyfloat) (fadd : pyfloat -> pyfloat -> pyfloat)
  (df : list Transaction) :
  (forall t, In t df -> fund_name t = None) ->
  generate_fund_wise_report col_sum fadd df = [].
Proof.
  intros H. unfold generate_fund_wise_report.
  destruct (Nat.eqb (length df) 0); [reflexivity|].
  assert (Hk : group_keys df = []).
  { destruct (group_keys df) as [|k ks] eqn:Hg; [reflexivity|].
    assert (Hin : In k (group_keys df)) by (rewrite Hg; now left).
    apply group_keys_in in Hin. destruct Hin as (t & Ht & Hn).
    rewrite (H t Ht) in Hn. discriminate. }
  now rewrite Hk.
Qed.

(** X10.  When no row of the sheet is a fund name line, every record the
    scan collects is without a fund name, and the fund-wise report of
    either period is empty, whatever the number of records the periods
    hold. *)
Theorem no_fund_header_no_fund_rows
  (col_sum : list pyfloat -> pyfloat) (fadd : pyfloat -> pyfloat -> pyfloat)
  (df : list (list cell)) :
  forallb (fun r => negb (is_fund_header r)) df = true ->
  (forall t, In t (transactions (scan initial df)) -> fund_name t = None) /\
  generate_fund_wise_report col_sum fadd
    (before_july_23 (transactions (scan initial df))) = [] /\
  generate_fund_wise_report col_sum fadd
    (after_july_23 (transactions (scan initial df))) = [].
Proof.
  intros H.
  assert (Hall : forall t, In t (transactions (scan initial df)) -> fund_name t = None).
  { destruct (scan_keeps_fund df initial H) as (_ & new & Ht & Hf).
    simpl in Ht. rewrite Ht. rewrite Forall_forall in Hf. exact Hf. }
  split; [exact Hall|]. split; apply unnamed_report; intros t Ht; apply Hall.
  - unfold before_july_23, redeemed_transactions, valid_transactions in Ht.
    apply filter_In in Ht. destruct Ht as [Ht _].
    apply filter_In in Ht. destruct Ht as [Ht _].
    now apply filter_In in Ht.
  - unfold after_july_23, redeemed_transactions, valid_transactions in Ht.
    apply filter_In in Ht. destruct Ht as [Ht _].
    apply filter_In in Ht. destruct Ht as [Ht _].
    now apply filter_In in Ht.
Qed.

Lemma no_fund_header_no_fund_rows_witness :
  let df := tl sample_sheet in
  length (before_july_23 (transactions (scan initial df))) = 1%nat /\
  generate_fund_wise_report (fun _ => fzero) (fun a _ => a)
    (before_july_23 (transactions (scan initial df))) = [].
Proof.
  split; [vm_compute; reflexivity|].
  apply (proj1 (proj2 (no_fund_header_no_fund_rows (fun _ => fzero) (fun a _ => a)
                         (tl sample_sheet) eq_refl))).
Defined.

(** ** Dates in ISO form are read back *)

Lemma digit_char_facts (k : Z) :
  0 <= k <= 9 ->
  is_digit (digit_char k) = true /\ digit_val (digit_char k) = k /\
  is_space (digit_char k) = false /\ Ascii.eqb dquote (digit_char k) = false.
Proof.
  intros H.
  assert (Hk : k = 0 \/ k = 1 \/ k = 2 \/ k = 3 \/ k = 4 \/ k = 5 \/ k = 6 \/
               k = 7 \/ k = 8 \/ k = 9) by lia.
  repeat (destruct Hk as [-> | Hk]; [vm_compute; auto|]).
  subst k. vm_compute. auto.
Qed.

Lemma strip_by_id (p : ascii -> bool) (a z : ascii) (mid : str) :
  p a = false -> p z = false ->
  strip_by p (a :: mid ++ [z]) = a :: mid ++ [z].
Proof.
  intros Ha Hz. unfold strip_by. cbn [lstrip_by]. rewrite Ha.
  change (a :: mid ++ [z]) with ((a :: mid) ++ [z]).
  rewrite rev_app_distr. cbn [rev app lstrip_by]. rewrite Hz.
  change (z :: rev mid ++ [a]) with ([z] ++ rev (a :: mid)).
  rewrite rev_app_distr, rev_involutive. reflexivity.
Qed.

Lemma match_all_head (d : directive) (ds : list directive)
  (st mid x : fields * str) (l l' : list (fields * str)) :
  match_directive d st = mid :: l ->
  match_all ds mid = x :: l' ->
  exists l'', match_all (d :: ds) st = x :: l''.
Proof.
  intros Hd Hm. cbn [match_all]. rewrite Hd. cbn [flat_map]. rewrite Hm.
  eexists. reflexivity.
Qed.

Lemma day_of_two_digits (f : fields) (dd : Z) :
  1 <= dd <= 31 ->
  exists l,
    match_directive Dir_d (f, two_digits dd)
    = (mkfields (f_year f) (f_month f) dd, []) :: l.
Proof.
  intros H. destruct f as [fy fm fd].
  assert (Hd : exists n, dd = Z.of_nat n /\ (1 <= n <= 31)%nat)
    by (exists (Z.to_nat dd); lia).
  destruct Hd as (n & -> & Hn).
  do 32 (destruct n as [|n]; [try lia; eexists; vm_compute; reflexivity|]).
  lia.
Qed.

Lemma month_of_two_digits (f : fields) (m : Z) (rest : str) :
  1 <= m <= 12 ->
  exists l,
    match_directive Dir_m (f, two_digits m ++ rest)
    = (mkfields (f_year f) m (f_day f), rest) :: l.
Proof.
  intros H. destruct f as [fy fm fd].
  assert (Hd : exists n, m = Z.of_nat n /\ (1 <= n <= 12)%nat)
    by (exists (Z.to_nat m); lia).
  destruct Hd as (n & -> & Hn).
  do 13 (destruct n as [|n]; [try lia; eexists; vm_compute; reflexivity|]).
  lia.
Qed.

Lemma four_digits_value (y : Z) :
  1000 <= y <= 9999 ->
  forallb is_digit (four_digits y) = true /\
  digits_value (map digit_val (four_digits y)) = y.
Proof.
  intros H. unfold four_digits.
  destruct (digit_char_facts (y / 1000)) as (A1 & A2 & _); [Z.div_mod_to_equations; lia|].
  destruct (digit_char_facts (y / 100 mod 10)) as (B1 & B2 & _); [Z.div_mod_to_equations; lia|].
  destruct (digit_char_facts (y / 10 mod 10)) as (C1 & C2 & _); [Z.div_mod_to_equations; lia|].
  destruct (digit_char_facts (y mod 10)) as (D1 & D2 & _); [Z.div_mod_to_equations; lia|].
  split.
  - cbn [forallb]. now rewrite A1, B1, C1, D1.
  - cbn [map]. rewrite A2, B2, C2, D2. unfold digits_value. cbn [fold_left].
    Z.div_mod_to_equations. lia.
Qed.

Lemma days_in_month_bound (y m : Z) : days_in_month y m <= 31.
Proof.
  unfold days_in_month.
  destruct (m =? 2); [destruct (is_leap y); lia|].
  destruct ((m =? 4) || (m =? 6) || (m =? 9) || (m =? 11)); lia.
Qed.

(** The year-month-day format reads four digits, a hyphen, a month of two
    digits, a hyphen and a day of two digits as that date. *)
Lemma iso_text_matches (a b c e : ascii) (m dd : Z) :
  is_digit a && is_digit b && is_digit c && is_digit e = true ->
  1 <= m <= 12 -> 1 <= dd <= 31 ->
  exists l,
    match_all [Dir_Y; Dir_lit "-"; Dir_m; Dir_lit "-"; Dir_d]
      (no_fields,
       (a :: b :: c :: e :: "-"%char :: two_digits m ++ "-"%char :: two_digits dd : str))
    = (mkfields (digits_value (map digit_val [a; b; c; e])) m dd, ([] : str)) :: l.
Proof.
  intros Hdig Hm Hd.
  set (Y := digits_value (map digit_val [a; b; c; e])).
  destruct (day_of_two_digits (mkfields Y m 1) dd Hd) as (l5 & H5).
  destruct (match_all_head Dir_d [] _ _ (mkfields Y m dd, []) l5 [] H5 eq_refl)
    as (l5' & H5').
  assert (H4 : match_directive (Dir_lit "-") (mkfields Y m 1, "-"%char :: two_digits dd)
               = [(mkfields Y m 1, two_digits dd)]) by reflexivity.
  destruct (match_all_head _ _ _ _ _ _ _ H4 H5') as (l4 & H4').
  destruct (month_of_two_digits (mkfields Y 1 1) m ("-"%char :: two_digits dd) Hm)
    as (l3 & H3).
  destruct (match_all_head _ _ _ _ _ _ _ H3 H4') as (l3' & H3').
  assert (H2 : match_directive (Dir_lit "-")
                 (mkfields Y 1 1, "-"%char :: two_digits m ++ "-"%char :: two_digits dd)
               = [(mkfields Y 1 1, two_digits m ++ "-"%char :: two_digits dd)])
    by reflexivity.
  destruct (match_all_head _ _ _ _ _ _ _ H2 H3') as (l2 & H2').
  assert (H1 : match_directive Dir_Y
                 (no_fields,
                  a :: b :: c :: e :: "-"%char :: two_digits m ++ "-"%char :: two_digits dd)
               = [(mkfields Y 1 1,
                   "-"%char :: two_digits m ++ "-"%char :: two_digits dd)]).
  { cbn [match_directive match_Y]. rewrite Hdig. reflexivity. }
  exact (match_all_head _ _ _ _ _ _ _ H1 H2').
Qed.

(** X11.  A date of the calendar with a year of four digits, printed in
    the form year-month-day as the program prints the date of the change
    of rules, is read back by [parse_date] as the same date, without a
    warning: the three formats tried first reject the text and the
    year-month-day format accepts it. *)
Theorem iso_date_round_trip (d : datetime) :
  calendar_date d -> 1000 <= year d ->
  parse_date (strftime_iso d) = (Some d, []) /\
  strptime (strftime_iso d) (lit "%b %d, %Y") = None /\
  strptime (strftime_iso d) (lit "%B %d, %Y") = None /\
  strptime (strftime_iso d) (lit "%d/%m/%Y") = None /\
  strptime (strftime_iso d) (lit "%Y-%m-%d") = Some d.
Proof.
  destruct d as [y m dd]. unfold calendar_date. cbn [year month day].
  intros (Hy & Hm & Hd) Hy4.
  pose proof (days_in_month_bound y m) as Hb.
  destruct (four_digits_value y) as [Hdig Hval]; [lia|].
  unfold strftime_iso, four_digits, lit in *.
  cbn [app list_ascii_of_string year month day forallb map] in *.
  set (a := digit_char (y / 1000)) in *.
  set (b := digit_char (y / 100 mod 10)) in *.
  set (c := digit_char (y / 10 mod 10)) in *.
  set (e := digit_char (y mod 10)) in *.
  rewrite andb_true_r in Hdig.
  assert (Hdig' : is_digit a && is_digit b && is_digit c && is_digit e = true).
  { apply andb_prop in Hdig. destruct Hdig as [Ha Hdig].
    apply andb_prop in Hdig. destruct Hdig as [Hb' Hdig].
    apply andb_prop in Hdig. destruct Hdig as [Hc He].
    now rewrite Ha, Hb', Hc, He. }
  set (s := a :: b :: c :: e :: "-"%char :: two_digits m ++ "-"%char :: two_digits dd).
  assert (Hiso : strptime s (list_ascii_of_string "%Y-%m-%d") = Some (mkdate y m dd)).
  { destruct (iso_text_matches a b c e m dd Hdig' Hm) as (l & Hl); [lia|].
    unfold strptime.
    change (compile false (list_ascii_of_string "%Y-%m-%d"))
      with [Dir_Y; Dir_lit "-"; Dir_m; Dir_lit "-"; Dir_d].
    match goal with
    | |- match ?X with _ => _ end = _ =>
        replace X
          with ((mkfields (digits_value (map digit_val [a; b; c; e])) m dd, ([] : str))
                :: l)
          by (symmetry; exact Hl)
    end.
    cbn [map]. rewrite Hval. unfold make_date. cbn [f_year f_month f_day].
    assert (Hok : (1 <=? y) && (y <=? 9999) && (1 <=? m) && (m <=? 12) &&
                  (1 <=? dd) && (dd <=? days_in_month y m) = true).
    { repeat (apply andb_true_intro; split); apply Z.leb_le; lia. }
    now rewrite Hok. }
  assert (Hshape : shape_iso s).
  { exists a, b, c, e, "-"%char, (two_digits m ++ "-"%char :: two_digits dd).
    apply andb_prop in Hdig'. destruct Hdig' as [H3 He].
    apply andb_prop in H3. destruct H3 as [H2 Hc].
    apply andb_prop in H2. destruct H2 as [Ha Hb'].
    repeat split; auto. }
  assert (H1 : strptime s (lit "%b %d, %Y") = None).
  { destruct (strptime s (lit "%b %d, %Y")) eqn:E; [|reflexivity].
    exfalso. apply accept_abbr in E. exact (name_or_iso s E Hshape). }
  assert (H2 : strptime s (lit "%B %d, %Y") = None).
  { destruct (strptime s (lit "%B %d, %Y")) eqn:E; [|reflexivity].
    exfalso. apply accept_full in E. exact (name_or_iso s E Hshape). }
  assert (H3 : strptime s (lit "%d/%m/%Y") = None).
  { destruct (strptime s (lit "%d/%m/%Y")) eqn:E; [|reflexivity].
    exfalso. apply accept_slash in E.
    apply (iso_or_day "/" s); auto. }
  split; [|split; [exact H1|split; [exact H2|split; [exact H3|exact Hiso]]]].
  destruct (digit_char_facts (y / 1000)) as (_ & _ & Hsa & Hqa);
    [Z.div_mod_to_equations; lia|].
  destruct (digit_char_facts (dd mod 10)) as (_ & _ & Hsz & Hqz);
    [Z.div_mod_to_equations; lia|].
  fold a in Hsa, Hqa.
  assert (Hs : s = a :: [b; c; e; "-"%char; digit_char (m / 10); digit_char (m mod 10);
                         "-"%char; digit_char (dd / 10)] ++ [digit_char (dd mod 10)])
    by reflexivity.
  assert (Hstrip : strip s = s)
    by (rewrite Hs; unfold strip; apply strip_by_id; assumption).
  assert (Hquote : strip_char dquote s = s)
    by (rewrite Hs; unfold strip_char; apply strip_by_id; assumption).
  unfold parse_date. fold s. rewrite Hstrip, Hquote.
  assert (He1 : str_eqb s [] = false) by (apply str_eqb_neq; discriminate).
  assert (He2 : str_eqb s (lit "-") = false)
    by (apply str_eqb_neq; rewrite Hs; discriminate).
  rewrite He1, He2. cbn [orb].
  unfold formats. cbn [try_formats]. rewrite H1, H2, H3.
  fold (lit "%Y-%m-%d") in Hiso. now rewrite Hiso.
Qed.

Lemma iso_date_round_trip_witness :
  strftime_iso TAX_CHANGE_DATE = lit "2024-07-23" /\
  parse_date (strftime_iso TAX_CHANGE_DATE) = (Some TAX_CHANGE_DATE, []).
Proof.
  split; [vm_compute; reflexivity|].
  apply (iso_date_round_trip TAX_CHANGE_DATE).
  - unfold calendar_date. vm_compute. intuition discriminate.
  - vm_compute. discriminate.
Defined.
